(** * clip-and-brew: the recorder / uploader pipeline and the Daydream client

    A shallow embedding of
      - [VideoRecorder] and [StudioRecorder.startRecording]
        (the StudioRecorder component),
      - [uploadToLivepeer] (same file),
      - [createDaydreamStream], [updateDaydreamPromptsWithRetry] and the
        request body of [updateDaydreamPrompts] (src/lib/daydream.ts).

    Conventions of the embedding.
      - An [async] function is a computation that records the effects it
        performs, in order, in a trace of events and ends with [Ok v]
        (the promise resolves with [v]) or [Throw e] (it rejects with [e]).
      - What the outside world answers (edge functions, the TUS client, the
        PUT request, the encoder, the clock, the duration repair) is an
        argument of the computation.  A platform call has the outcomes the
        source distinguishes: [supabase.functions.invoke] answers
        [{data, error}], the TUS upload ends in [onSuccess] or [onError],
        [fetch] resolves with a response that is [ok] or not, or rejects,
        [fixWebmDuration] returns or throws.
      - Optional callbacks ([onProgress?.(..)], [onUploadDone?.(..)]) are
        taken as provided: the trace records the call.
      - [console.warn] and [console.error] are recorded with their first
        argument; [console.log] is not recorded.
      - JavaScript numbers that are counts or millisecond timestamps are [Z];
        progress fractions are [Q] (a quotient by 0 is 0 there, not [NaN] or
        [Infinity]; no statement depends on its value).
      - A call of the component's [startRecording] runs in two steps, cut
        at its [await]: other code can run between them, such as a second
        call made in the same tick. *)

From Stdlib Require Import String Ascii List ZArith QArith Qminmax Lia Bool.
From Stdlib Require Import DecimalString.
Import ListNotations.

Set Implicit Arguments.
Open Scope list_scope.
Open Scope string_scope.

(** ** JavaScript values used by the code *)

Module Js.

(** [a || d] on an optional string: the empty string is falsy. *)
Definition or_str (a : option string) (d : string) : string :=
  match a with
  | Some s => if String.eqb s "" then d else s
  | None => d
  end.

(** Truthiness of an optional string. *)
Definition truthy (a : option string) : bool :=
  match a with
  | Some s => negb (String.eqb s "")
  | None => false
  end.

(** Truthiness of an optional number ([0] is falsy). *)
Definition truthyZ (a : option Z) : bool :=
  match a with
  | Some z => negb (Z.eqb z 0)
  | None => false
  end.

(** [s.includes(sub)]. *)
Definition includes (s sub : string) : bool :=
  match String.index 0 sub s with
  | Some _ => true
  | None => false
  end.

(** Template-literal rendering of an integer. *)
Definition show (z : Z) : string := NilZero.string_of_int (Z.to_int z).

(** [status === lit] where [status] may be [undefined]. *)
Definition status_is (status : option string) (lit : string) : bool :=
  match status with
  | Some s => String.eqb s lit
  | None => false
  end.

(** A value made by [new Error(message)]. *)
Inductive Error := mkError (message : string).

Definition message (e : Error) : string := let (m) := e in m.

(** A [Blob]: its bytes and its [type]. *)
Record Blob := { blob_bytes : list Byte.byte; blob_type : string }.

Definition blob_size (b : Blob) : Z := Z.of_nat (length (blob_bytes b)).

(** [new Blob(parts, { type })] concatenates the parts in order. *)
Definition new_Blob (parts : list Blob) (type : string) : Blob :=
  {| blob_bytes := concat (map blob_bytes parts); blob_type := type |}.

End Js.

(** ** Computations with a trace and exceptions *)

Inductive Result (E A : Type) :=
| Ok (a : A)
| Throw (e : E).
Arguments Ok {E A} a.
Arguments Throw {E A} e.

Section Effects.
Variables Ev E : Type.

Definition M (A : Type) : Type := (list Ev * Result E A)%type.

Definition ret {A} (a : A) : M A := ([], Ok a).

Definition bind {A B} (m : M A) (k : A -> M B) : M B :=
  match m with
  | (t, Ok a) => let (t', r) := k a in ((t ++ t')%list, r)
  | (t, Throw e) => (t, Throw e)
  end.

Definition emit (ev : Ev) : M unit := ([ev], Ok tt).

Definition throw {A} (e : E) : M A := ([], Throw e).

(** [try { body } catch (e) { handler e }] *)
Definition try_catch {A} (body : M A) (handler : E -> M A) : M A :=
  match body with
  | (t, Ok a) => (t, Ok a)
  | (t, Throw e) => let (t', r) := handler e in ((t ++ t')%list, r)
  end.

Definition trace_of {A} (m : M A) : list Ev := fst m.
Definition result_of {A} (m : M A) : Result E A := snd m.
End Effects.

Arguments ret {Ev E A} a.
Arguments bind {Ev E A B} m k.
Arguments emit {Ev E} ev.
Arguments throw {Ev E A} e.
Arguments try_catch {Ev E A} body handler.
Arguments trace_of {Ev E A} m.
Arguments result_of {Ev E A} m.

Declare Scope eff_scope.
Delimit Scope eff_scope with eff.
Notation "x <- m ;; k" := (bind m (fun x => k))
  (at level 61, m at next level, right associativity) : eff_scope.
Notation "m ;; k" := (bind m (fun _ => k))
  (at level 61, right associativity) : eff_scope.

(** ** The uploader: [uploadToLivepeer] *)

Module Uploader.
Import Js.

(** The error member of a [supabase.functions.invoke] answer. *)
Record FunctionsError := { fe_message : option string }.

(** [uploadData], the answer of [studio-request-upload] (the upload ticket). *)
Record UploadData := {
  assetId : option string;
  ticket_playbackId : option string;
  tusEndpoint : option string;
  uploadUrl : option string;
  rawUploadedFileUrl : option string }.

(** [assetData], the answer of [studio-asset-status]. *)
Record AssetError := { ae_message : option string }.

Record AssetData := {
  status : option string;
  playbackId : option string;
  downloadUrl : option string;
  asset_error : option AssetError;
  progress : option Q }.

Record Reply (A : Type) := { data : option A; error : option FunctionsError }.

Record UploadProgress := {
  phase : string;
  step : option string;
  up_progress : option Q }.

Record UploadDoneResult := {
  ud_assetId : option string;
  ud_playbackId : option string;
  ud_rawUploadedFileUrl : option string }.

Record UploadResult := {
  ur_assetId : option string;
  ur_playbackId : string;
  ur_downloadUrl : option string;
  ur_rawUploadedFileUrl : option string }.

(** One run of [tus.Upload]: the [onProgress(bytesUploaded, bytesTotal)]
    calls it makes, then [onSuccess] ([None]) or [onError(error)]
    ([Some error.message]). *)
Record TusRun := {
  tus_reports : list (Z * Z);
  tus_error : option (option string) }.

(** The response of the PUT [fetch]; [put_text = None] when
    [putResponse.text()] rejects. *)
Record PutResponse := {
  put_ok : bool;
  put_status : Z;
  put_text : option string }.

(** What the network answers during one call of [uploadToLivepeer];
    [asset_status k] answers the status request made when [attempts = k].
    The PUT [fetch] resolves with a response ([Ok]) or rejects with the
    error of the transport ([Throw]: no connection, a refused request). *)
Record Network := {
  request_upload : Reply UploadData;
  tus : TusRun;
  put : Result Error PutResponse;
  asset_status : nat -> Reply AssetData }.

Inductive Event :=
| Invoke (fn : string)
| OnProgress (p : UploadProgress)
| OnUploadDone (r : UploadDoneResult)
| TusStart (endpoint filename filetype : string)
| PutFetch (url contentType : string)
| Sleep (ms : Z)
| ConsoleError (msg : string).

Definition Eff := M Event Error.

Local Open Scope eff_scope.

Definition maxAttempts : nat := 300.

(** Step 1: request the upload URL. *)
Definition requestUpload (net : Network) : Eff UploadData :=
  emit (Invoke "studio-request-upload") ;;
  match error (request_upload net) with
  | Some uploadError =>
      emit (ConsoleError "Failed to request upload URL:") ;;
      throw (mkError ("Failed to request upload: "
                      ++ or_str (fe_message uploadError) "Unknown error"))
  | None =>
      match data (request_upload net) with
      | Some uploadData =>
          if truthy (assetId uploadData) then ret uploadData
          else emit (ConsoleError "Invalid upload response:") ;;
               throw (mkError "Failed to get asset ID from server")
      | None =>
          emit (ConsoleError "Invalid upload response:") ;;
          throw (mkError "Failed to get asset ID from server")
      end
  end.

(** The promise around [tus.Upload]: progress reports are forwarded to
    [onProgress]; [onSuccess] resolves; [onError] logs and rejects with a
    wrapped error. *)
Definition tusUpload (net : Network) (endpoint filename : string) (blob : Blob)
  : Eff unit :=
  emit (TusStart endpoint filename (or_str (Some (blob_type blob)) "video/webm")) ;;
  (map (fun r : Z * Z =>
          OnProgress {| phase := "uploading";
                        step := Some "Uploading...";
                        up_progress := Some (inject_Z (fst r) / inject_Z (snd r))%Q |})
       (tus_reports (tus net)),
   Ok tt) ;;
  match tus_error (tus net) with
  | None => ret tt
  | Some msg =>
      emit (ConsoleError "TUS upload failed:") ;;
      throw (mkError ("TUS upload failed: " ++ or_str msg "Unknown error"))
  end.

(** Step 2: TUS resumable upload (preferred) or PUT fallback.  Returns the
    final value of [uploaded] when nothing was thrown. *)
Definition upload (net : Network) (uploadData : UploadData)
    (blob : Blob) (filename : string) : Eff unit :=
  uploaded <-
    (if truthy (tusEndpoint uploadData) then
       emit (OnProgress {| phase := "uploading"; step := Some "Uploading...";
                           up_progress := None |}) ;;
       try_catch
         (tusUpload net (or_str (tusEndpoint uploadData) "") filename blob ;;
          ret true)
         (fun _ => emit (ConsoleError "TUS upload failed:") ;; ret false)
     else ret false) ;;
  uploaded <-
    (if negb uploaded && truthy (uploadUrl uploadData) then
       emit (OnProgress {| phase := "uploading"; step := Some "Uploading...";
                           up_progress := None |}) ;;
       emit (PutFetch (or_str (uploadUrl uploadData) "")
                      (or_str (Some (blob_type blob)) "video/webm")) ;;
       putResponse <- (([], put net) : Eff PutResponse) ;;
       if put_ok putResponse then ret true
       else
         let errorText := match put_text putResponse with
                          | Some t => t
                          | None => "Unknown error"
                          end in
         emit (ConsoleError "PUT upload failed:") ;;
         throw (mkError ("Upload failed: " ++ show (put_status putResponse)
                         ++ " - " ++ errorText))
     else ret uploaded) ;;
  if negb uploaded then throw (mkError "Upload failed") else ret tt.

(** [assetData?.progress || (attempts / maxAttempts)] *)
Definition poll_progress (assetData : option AssetData) (attempts : nat) : Q :=
  let fallback := (inject_Z (Z.of_nat attempts) / inject_Z (Z.of_nat maxAttempts))%Q in
  match assetData with
  | Some a =>
      match progress a with
      | Some p => if Qeq_bool p 0 then fallback else p
      | None => fallback
      end
  | None => fallback
  end.

Definition status_of (assetData : option AssetData) : option string :=
  match assetData with
  | Some a => status a
  | None => None
  end.

(** The argument of [onUploadDone]. *)
Definition uploadDoneResult (uploadData : UploadData) : UploadDoneResult :=
  {| ud_assetId := assetId uploadData;
     ud_playbackId := ticket_playbackId uploadData;
     ud_rawUploadedFileUrl := rawUploadedFileUrl uploadData |}.

(** The argument of [onProgress] in the loop. *)
Definition processingProgress (assetData : option AssetData) (attempts : nat)
  : UploadProgress :=
  {| phase := "processing";
     step := Some ("Processing: " ++ or_str (status_of assetData) "waiting" ++ "...");
     up_progress := Some (Qmin (poll_progress assetData attempts) 99) |}.

(** [assetData?.error?.message || 'Unknown processing error'] *)
Definition errorMsg (assetData : option AssetData) : string :=
  or_str (match assetData with
          | Some a => match asset_error a with
                      | Some e => ae_message e
                      | None => None
                      end
          | None => None
          end) "Unknown processing error".

(** Step 3, the [while (attempts < maxAttempts)] loop.  [remaining] is
    [maxAttempts - attempts], the number of iterations the condition still
    allows; the loop yields the last [assetData] when it ends by [break] or
    by its condition. *)
Fixpoint pollLoop (net : Network) (uploadData : UploadData)
    (remaining attempts : nat) (uploadDoneCalled : bool)
    (assetData : option AssetData) {struct remaining}
  : Eff (option AssetData) :=
  match remaining with
  | O => ret assetData
  | S remaining' =>
      emit (Invoke "studio-asset-status") ;;
      match error (asset_status net attempts) with
      | Some e =>
          emit (ConsoleError "Error checking asset status:") ;;
          throw (mkError ("Failed to check asset status: "
                          ++ or_str (fe_message e) "Unknown error"))
      | None =>
          let assetData := data (asset_status net attempts) in
          let status := status_of assetData in
          let notify := negb uploadDoneCalled && status_is status "processing" in
          (if notify then emit (OnUploadDone (uploadDoneResult uploadData))
           else ret tt) ;;
          let uploadDoneCalled := uploadDoneCalled || notify in
          emit (OnProgress (processingProgress assetData attempts)) ;;
          if status_is status "ready" then ret assetData
          else if status_is status "failed" || status_is status "error" then
            emit (ConsoleError "Asset processing failed:") ;;
            throw (mkError ("Video processing failed: " ++ errorMsg assetData
                            ++ ". The video file may be invalid or unsupported."))
          else
            emit (Sleep 1000) ;;
            pollLoop net uploadData remaining' (S attempts) uploadDoneCalled assetData
      end
  end.

(** After the loop: timeout and missing-identifier checks, final result. *)
Definition finish (uploadData : UploadData) (assetData : option AssetData)
  : Eff UploadResult :=
  if negb (status_is (status_of assetData) "ready") then
    emit (ConsoleError "Asset processing timeout. Last status:") ;;
    throw (mkError
      "Video processing timed out after 5 minutes. Please try recording again.")
  else
    match assetData with
    | Some a =>
        if truthy (playbackId a) then
          emit (OnProgress {| phase := "complete"; step := Some "Complete!";
                              up_progress := Some 100%Q |}) ;;
          ret {| ur_assetId := assetId uploadData;
                 ur_playbackId := or_str (playbackId a) "";
                 ur_downloadUrl := downloadUrl a;
                 ur_rawUploadedFileUrl := rawUploadedFileUrl uploadData |}
        else
          emit (ConsoleError "Asset ready but no playbackId:") ;;
          throw (mkError "Video processed but playback ID is missing")
    | None =>
        emit (ConsoleError "Asset ready but no playbackId:") ;;
        throw (mkError "Video processed but playback ID is missing")
    end.

Definition poll (net : Network) (uploadData : UploadData) : Eff UploadResult :=
  assetData <- pollLoop net uploadData maxAttempts 0 false None ;;
  finish uploadData assetData.

Definition uploadToLivepeer (net : Network) (blob : Blob) (filename : string)
  : Eff UploadResult :=
  uploadData <- requestUpload net ;;
  upload net uploadData blob filename ;;
  poll net uploadData.

(** The error kinds of the uploader, as the values the code throws. *)
Definition ProcessingTimeoutError : Error :=
  mkError "Video processing timed out after 5 minutes. Please try recording again.".

Definition ProcessingFailedError (reason : string) : Error :=
  mkError ("Video processing failed: " ++ reason
           ++ ". The video file may be invalid or unsupported.").

Definition UploadError (e : Error) : Prop :=
  String.prefix "Upload failed" (message e) = true.

(** The statuses at which the loop stops polling. *)
Definition terminal (status : option string) : bool :=
  status_is status "ready" || status_is status "failed" || status_is status "error".

(** Number of status requests in a trace. *)
Definition is_poll (ev : Event) : bool :=
  match ev with
  | Invoke fn => String.eqb fn "studio-asset-status"
  | _ => false
  end.

Definition polls (t : list Event) : nat := length (filter is_poll t).

Definition is_upload_done (ev : Event) : bool :=
  match ev with
  | OnUploadDone _ => true
  | _ => false
  end.

(** *** Vocabulary of the statements and concrete inputs *)

(** The events of one iteration that neither breaks nor throws. *)
Definition iteration (ud : UploadData) (a : option AssetData) (attempts : nat)
    (uploadDoneCalled : bool) : list Event :=
  (Invoke "studio-asset-status"
   :: (if negb uploadDoneCalled && status_is (status_of a) "processing"
       then [OnUploadDone (uploadDoneResult ud)] else [])
   ++ [OnProgress (processingProgress a attempts); Sleep 1000])%list.

(** The events of the iteration that sees the end of processing. *)
Definition last_iteration (ud : UploadData) (a : option AssetData) (attempts : nat)
    (uploadDoneCalled : bool) : list Event :=
  (Invoke "studio-asset-status"
   :: (if negb uploadDoneCalled && status_is (status_of a) "processing"
       then [OnUploadDone (uploadDoneResult ud)] else [])
   ++ [OnProgress (processingProgress a attempts)])%list.

Definition startProgress : Event :=
  OnProgress {| phase := "uploading"; step := Some "Uploading..."; up_progress := None |}.

Definition byteProgress (r : Z * Z) : Event :=
  OnProgress {| phase := "uploading"; step := Some "Uploading...";
                up_progress := Some (inject_Z (fst r) / inject_Z (snd r))%Q |}.

(** The resumable upload was offered and ended in [onSuccess]. *)
Definition tus_succeeded (net : Network) (ud : UploadData) : bool :=
  truthy (tusEndpoint ud)
  && match tus_error (tus net) with None => true | Some _ => false end.

(** The direct write is made. *)
Definition put_attempted (net : Network) (ud : UploadData) : bool :=
  negb (tus_succeeded net ud) && truthy (uploadUrl ud).

Definition upload_trace (net : Network) (ud : UploadData) (b : Blob)
    (filename : string) : list Event :=
  ((if truthy (tusEndpoint ud) then
      startProgress
      :: TusStart (or_str (tusEndpoint ud) "") filename
                  (or_str (Some (blob_type b)) "video/webm")
      :: map byteProgress (tus_reports (tus net))
      ++ match tus_error (tus net) with
         | None => []
         | Some _ => [ConsoleError "TUS upload failed:";
                      ConsoleError "TUS upload failed:"]
         end
    else [])
   ++ (if put_attempted net ud then
         startProgress
         :: PutFetch (or_str (uploadUrl ud) "")
                     (or_str (Some (blob_type b)) "video/webm")
         :: match put net with
            | Ok putResponse =>
                if put_ok putResponse then [] else [ConsoleError "PUT upload failed:"]
            | Throw _ => []
            end
       else []))%list.

Definition upload_result (net : Network) (ud : UploadData) : Result Error unit :=
  if tus_succeeded net ud then Ok tt
  else if put_attempted net ud then
    match put net with
    | Ok putResponse =>
        if put_ok putResponse then Ok tt
        else Throw (mkError ("Upload failed: " ++ show (put_status putResponse) ++ " - "
                             ++ match put_text putResponse with
                                | Some t => t
                                | None => "Unknown error"
                                end))
    | Throw e => Throw e
    end
  else Throw (mkError "Upload failed").

Definition count (f : Event -> bool) (t : list Event) : nat := length (filter f t).

(** Events of the upload step are neither status requests nor [onUploadDone]. *)
Definition upload_event (ev : Event) : bool :=
  match ev with
  | OnProgress _ | TusStart _ _ _ | PutFetch _ _ | ConsoleError _ => true
  | _ => false
  end.

Definition request_event (ev : Event) : bool :=
  match ev with
  | Invoke fn => String.eqb fn "studio-request-upload"
  | ConsoleError _ => true
  | _ => false
  end.

(** The upload is delivered: ticket obtained, bytes written. *)
Definition delivered (net : Network) (b : Blob) (filename : string)
    (ud : UploadData) : Prop :=
  result_of (requestUpload net) = Ok ud
  /\ result_of (upload net ud b filename) = Ok tt.

(** The answer to the status request of attempt [i] carries no error and a
    status at which the loop goes on. *)
Definition goes_on (net : Network) (i : nat) : Prop :=
  error (asset_status net i) = None
  /\ terminal (status_of (data (asset_status net i))) = false.

Definition reply_status (s : string) (pid reason : option string) : Reply AssetData :=
  {| data := Some {| status := Some s; playbackId := pid; downloadUrl := None;
                     asset_error := option_map (fun r => {| ae_message := Some r |}) reason;
                     progress := None |};
     error := None |}.

Definition ticket0 : UploadData :=
  {| assetId := Some "asset-1"; ticket_playbackId := Some "pb-ticket";
     tusEndpoint := Some "https://tus.example/files";
     uploadUrl := Some "https://put.example/asset-1";
     rawUploadedFileUrl := None |}.

(** A network whose ticket is [ticket0], whose TUS upload succeeds after two
    progress reports, and whose status answers are [statuses]. *)
Definition net_of (statuses : nat -> Reply AssetData) : Network :=
  {| request_upload := {| data := Some ticket0; error := None |};
     tus := {| tus_reports := [(500, 1000); (1000, 1000)]%Z; tus_error := None |};
     put := Ok {| put_ok := true; put_status := 200; put_text := None |};
     asset_status := statuses |}.

Definition script (l : list (Reply AssetData)) (rest : Reply AssetData)
  : nat -> Reply AssetData :=
  fun k => nth k l rest.

Definition blob0 : Blob := {| blob_bytes := []; blob_type := "video/webm" |}.

Definition net_queued : Network := net_of (fun _ => reply_status "queued" None None).

Definition net_error : Network := net_of (fun _ => reply_status "error" None None).

Definition net_failed_third : Network :=
  net_of (script [reply_status "queued" None None;
                  reply_status "processing" None None;
                  reply_status "failed" None (Some "codec not supported")]
                 (reply_status "ready" (Some "pb-final") None)).

Definition completeProgress : Event :=
  OnProgress {| phase := "complete"; step := Some "Complete!";
                up_progress := Some 100%Q |}.

(** What the polling stage does on the script queued, processing,
    processing, ready, answered by [a0] .. [a3]. *)
Definition script4_trace (ud : UploadData) (a0 a1 a2 a3 : AssetData) : list Event :=
  [ Invoke "studio-asset-status";
    OnProgress (processingProgress (Some a0) 0);
    Sleep 1000;
    Invoke "studio-asset-status";
    OnUploadDone (uploadDoneResult ud);
    OnProgress (processingProgress (Some a1) 1);
    Sleep 1000;
    Invoke "studio-asset-status";
    OnProgress (processingProgress (Some a2) 2);
    Sleep 1000;
    Invoke "studio-asset-status";
    OnProgress (processingProgress (Some a3) 3);
    completeProgress ].

Definition net_script4 : Network :=
  net_of (script [reply_status "queued" None None;
                  reply_status "processing" None None;
                  reply_status "processing" None None;
                  reply_status "ready" (Some "pb-final") None]
                 (reply_status "queued" None None)).

Definition is_tus_start (ev : Event) : bool :=
  match ev with TusStart _ _ _ => true | _ => false end.

Definition is_put (ev : Event) : bool :=
  match ev with PutFetch _ _ => true | _ => false end.

(** The progress fractions handed to [onProgress], in order. *)
Definition fractions (t : list Event) : list Q :=
  flat_map (fun ev => match ev with
                      | OnProgress p => match up_progress p with
                                        | Some q => [q]
                                        | None => []
                                        end
                      | _ => []
                      end) t.

Definition ratio (r : Z * Z) : Q := (inject_Z (fst r) / inject_Z (snd r))%Q.

(** The direct write was made and answered with an [ok] response. *)
Definition put_succeeded (net : Network) : bool :=
  match put net with
  | Ok putResponse => put_ok putResponse
  | Throw _ => false
  end.

(** A network whose TUS upload fails after one progress report. *)
Definition net_tus_down (put_answer : Result Error PutResponse) : Network :=
  {| request_upload := {| data := Some ticket0; error := None |};
     tus := {| tus_reports := [(250, 1000)]%Z; tus_error := Some (Some "offline") |};
     put := put_answer;
     asset_status := fun _ => reply_status "ready" (Some "pb-final") None |}.

(** The connection is lost for good: the TUS upload fails and the PUT
    [fetch] rejects with the browser's [TypeError: Failed to fetch]. *)
Definition net_offline : Network := net_tus_down (Throw (mkError "Failed to fetch")).

End Uploader.


(** ** The recorder: [VideoRecorder] and [StudioRecorder.startRecording] *)

Module Recorder.
Import Js.

(** A [MediaRecorder] object: the encoder.  [recording] after [start(..)],
    [inactive] before it and after [stop()]. *)
Inductive RecordingState := inactive | recording.

Record MediaRecorder := { mr_mimeType : string; mr_state : RecordingState }.

(** Every [MediaRecorder] created so far; a reference to one is its index. *)
Definition Encoders := list MediaRecorder.

Definition is_active (m : MediaRecorder) : bool :=
  match mr_state m with
  | recording => true
  | inactive => false
  end.

Definition active_encoders (encs : Encoders) : nat := length (filter is_active encs).

Fixpoint set_state (h : nat) (s : RecordingState) (encs : Encoders) : Encoders :=
  match encs, h with
  | [], _ => []
  | m :: rest, O => {| mr_mimeType := mr_mimeType m; mr_state := s |} :: rest
  | m :: rest, S h' => m :: set_state h' s rest
  end.

(** The element found in the children: does it have [captureStream]? *)
Record Element := { has_captureStream : bool }.

Record VideoRecorder := {
  videoElement : Element;
  recorder : option nat;
  chunks : list Blob;
  startTime : option Z;
  mimeType : string }.

Definition new_VideoRecorder (el : Element) : VideoRecorder :=
  {| videoElement := el; recorder := None; chunks := [];
     startTime := None; mimeType := "" |}.

Record RecordingResult := {
  blob : Blob;
  durationMs : Z;
  rr_mimeType : string }.

Inductive Event :=
| FixWebmDuration (input : Blob) (duration : Z)
| ConsoleWarn (msg : string)
| ConsoleError (msg : string)
| OnProgress (phase step : string)
| OnRecordingStart
| OnError (e : Error).

Definition mimeCandidates : list string :=
  [ "video/webm;codecs=vp9,opus";
    "video/webm;codecs=vp8,opus";
    "video/webm;codecs=vp9";
    "video/webm;codecs=vp8";
    "video/webm" ].

(** [VideoRecorder.isSupported(videoElement)] *)
Definition isSupported (el : Element) : bool := has_captureStream el.

(** [start()]: the updated recorder object and encoders come back also when
    it throws. *)
Definition start (isTypeSupported : string -> bool) (now : Z)
    (encs : Encoders) (this : VideoRecorder)
  : Result Error unit * VideoRecorder * Encoders :=
  if negb (has_captureStream (videoElement this)) then
    (Throw (mkError "captureStream is not supported on this video element"),
     this, encs)
  else
    let mime := or_str (find isTypeSupported mimeCandidates) "" in
    let this := {| videoElement := videoElement this; recorder := recorder this;
                   chunks := chunks this; startTime := startTime this;
                   mimeType := mime |} in
    if negb (truthy (Some mime)) then
      (Throw (mkError "No supported video MIME type found"), this, encs)
    else
      let h := length encs in
      let encs := (encs ++ [{| mr_mimeType := mime; mr_state := inactive |}])%list in
      let this := {| videoElement := videoElement this; recorder := Some h;
                     chunks := []; startTime := Some now;
                     mimeType := mime |} in
      (Ok tt, this, set_state h recording encs).

(** The [ondataavailable] handler. *)
Definition ondataavailable (e_data : option Blob) (this : VideoRecorder)
  : VideoRecorder :=
  match e_data with
  | Some d =>
      if (0 <? blob_size d)%Z then
        {| videoElement := videoElement this; recorder := recorder this;
           chunks := (chunks this ++ [d])%list; startTime := startTime this;
           mimeType := mimeType this |}
      else this
  | None => this
  end.

(** The [dataavailable] events of a stretch of time, in order. *)
Definition deliver (events : list (option Blob)) (this : VideoRecorder)
  : VideoRecorder :=
  fold_left (fun r e => ondataavailable e r) events this.

(** What happens while [stop()] waits: whether [onstop] fires within the
    5000 ms (followed by the 100 ms grace), the [dataavailable] events
    delivered until the wait settles, and the clock read after it. *)
Record StopEnv := {
  onstop_fired : bool;
  flushed : list (option Blob);
  now_stop : Z }.

(** [stop()], with [fixWebmDuration] as the repair library: [None] when it
    throws. *)
Definition stop (fixWebmDuration : Blob -> Z -> option Blob) (env : StopEnv)
    (encs : Encoders) (this : VideoRecorder)
  : M Event Error RecordingResult * VideoRecorder * Encoders :=
  match recorder this with
  | Some h =>
      if negb (truthyZ (startTime this)) then
        (throw (mkError "Recording not started"), this, encs)
      else
        let encs := set_state h inactive encs in
        let this := deliver (flushed env) this in
        if negb (onstop_fired env) then
          (throw (mkError "Recording stop timed out"), this, encs)
        else
          let durationMs :=
            (now_stop env - match startTime this with Some t => t | None => 0 end)%Z in
          if (length (chunks this) =? 0)%nat then
            (throw (mkError "No video data recorded - the recording may have failed"),
             this, encs)
          else
            let raw := new_Blob (chunks this) (or_str (Some (mimeType this)) "video/webm") in
            if (blob_size raw <? 1000)%Z then
              (throw (mkError ("Recording too small (" ++ show (blob_size raw)
                               ++ " bytes) - video may be corrupted")),
               this, encs)
            else
              (bind (emit (FixWebmDuration raw durationMs)) (fun _ =>
               bind (match fixWebmDuration raw durationMs with
                     | Some fixed => ret fixed
                     | None =>
                         bind (emit (ConsoleError
                                 "Failed to fix WebM duration (proceeding anyway):"))
                              (fun _ => ret raw)
                     end) (fun blob =>
               ret {| blob := blob; durationMs := durationMs;
                      rr_mimeType := mimeType this |})),
               this, encs)
  | None => (throw (mkError "Recording not started"), this, encs)
  end.

(** The error kinds of [stop()], as the values the code throws. *)
Definition EmptyRecordingError : Error :=
  mkError "No video data recorded - the recording may have failed".

Definition UndersizedRecordingError (size : Z) : Error :=
  mkError ("Recording too small (" ++ show size ++ " bytes) - video may be corrupted").

(** The refs of the [StudioRecorder] component and the encoders of the page. *)
Record Refs := {
  recorderRef : option VideoRecorder;
  recordStartTimeRef : option Z;
  isRecordingRef : bool;
  isProcessingRef : bool }.

Record Page := { refs : Refs; encoders : Encoders }.

(** What [startRecording] finds: the [video] and [canvas] children of the
    container, the encodings the browser supports, the clock read by
    [VideoRecorder.start] and then by [startRecording]. *)
Record StartEnv := {
  video : option Element;
  canvas : option Element;
  isTypeSupported : string -> bool;
  now_recorder : Z;
  now_component : Z }.

(** The [catch] block of [startRecording]. *)
Definition failed_start (e : Error) (page : Page) : list Event * Page :=
  ([ConsoleError "StudioRecorder: Failed to start recording"; OnError e],
   {| refs := {| recorderRef := None; recordStartTimeRef := None;
                 isRecordingRef := false;
                 isProcessingRef := isProcessingRef (refs page) |};
      encoders := encoders page |}).

(** A call of [startRecording()] waiting at [await recorder.start()]: the
    recorder it created, held in its local variable, and how the promise of
    [start()] settled. *)
Record Suspended := {
  local_recorder : VideoRecorder;
  start_settled : Result Error unit }.

(** [startRecording()] up to its [await], all of it run in the tick of the
    caller: the two guards, the search for the element, [new VideoRecorder]
    and the body of [recorder.start()], which has no [await] of its own.
    The refs are not written yet.  [None] when the call is over: a guard
    returned, or an error thrown before the [await] reached the [catch]
    block. *)
Definition startRecording_begin (env : StartEnv) (page : Page)
  : list Event * option Suspended * Page :=
  if isRecordingRef (refs page) then
    ([ConsoleWarn "Recording already in progress"], None, page)
  else if isProcessingRef (refs page) then
    ([ConsoleWarn "Still processing previous recording"], None, page)
  else
    match (match video env with Some v => Some v | None => canvas env end) with
    | None =>
        let (t, page) :=
          failed_start
            (mkError "No video or canvas element found in StudioRecorder children")
            page in
        (t, None, page)
    | Some videoElement =>
        if negb (isSupported videoElement) then
          let (t, page) :=
            failed_start (mkError "Video capture not supported on this browser") page in
          (t, None, page)
        else
          match start (isTypeSupported env) (now_recorder env) (encoders page)
                      (new_VideoRecorder videoElement) with
          | (settled, rec, encs) =>
              ([], Some {| local_recorder := rec; start_settled := settled |},
               {| refs := refs page; encoders := encs |})
          end
    end.

(** The rest of the call, run when the awaited promise has settled: the refs
    are written and the callbacks invoked, or the [catch] block runs. *)
Definition startRecording_resume (env : StartEnv) (call : Suspended) (page : Page)
  : list Event * Page :=
  match start_settled call with
  | Ok _ =>
      ([OnProgress "recording" "Recording..."; OnRecordingStart],
       {| refs := {| recorderRef := Some (local_recorder call);
                     recordStartTimeRef := Some (now_component env);
                     isRecordingRef := true;
                     isProcessingRef := isProcessingRef (refs page) |};
          encoders := encoders page |})
  | Throw e => failed_start e page
  end.

(** One call of [startRecording()] with nothing running between its two
    steps: its trace, how its promise settles, the page after. *)
Definition startRecording (env : StartEnv) (page : Page)
  : list Event * Result Error unit * Page :=
  match startRecording_begin env page with
  | (t, None, page) => (t, Ok tt, page)
  | (t, Some call, page) =>
      let (t', page) := startRecording_resume env call page in
      ((t ++ t')%list, Ok tt, page)
  end.

(** Two calls of [startRecording()] made in one tick, as in
    [h.startRecording(); h.startRecording()]: the second call runs up to its
    [await] before the first is resumed; the two continuations then run in
    the order of the calls. *)
Definition startRecording_twice (env1 env2 : StartEnv) (page : Page)
  : list Event * Page :=
  match startRecording_begin env1 page with
  | (t1, call1, page) =>
      match startRecording_begin env2 page with
      | (t2, call2, page) =>
          let (t3, page) :=
            match call1 with
            | Some call => startRecording_resume env1 call page
            | None => ([], page)
            end in
          let (t4, page) :=
            match call2 with
            | Some call => startRecording_resume env2 call page
            | None => ([], page)
            end in
          ((t1 ++ t2 ++ t3 ++ t4)%list, page)
      end
  end.

(** A call reports its failure to the caller when its promise rejects or the
    [onError] callback is invoked. *)
Definition reports_rejection (call : list Event * Result Error unit) : Prop :=
  (exists e, snd call = Throw e) \/ (exists e, In (OnError e) (fst call)).

(** [dataavailable] events reaching the recorder held by the component. *)
Definition page_deliver (events : list (option Blob)) (page : Page) : Page :=
  {| refs := {| recorderRef := option_map (deliver events) (recorderRef (refs page));
                recordStartTimeRef := recordStartTimeRef (refs page);
                isRecordingRef := isRecordingRef (refs page);
                isProcessingRef := isProcessingRef (refs page) |};
     encoders := encoders page |}.

(** A freshly mounted component. *)
Definition mounted : Page :=
  {| refs := {| recorderRef := None; recordStartTimeRef := None;
                isRecordingRef := false; isProcessingRef := false |};
     encoders := [] |}.

(** *** Vocabulary of the statements and concrete inputs *)

(** The fragments the [ondataavailable] handler keeps. *)
Fixpoint kept (events : list (option Blob)) : list Blob :=
  match events with
  | [] => []
  | Some d :: rest => if (0 <? blob_size d)%Z then d :: kept rest else kept rest
  | None :: rest => kept rest
  end.

(** Total size of the fragments emitted. *)
Fixpoint emitted_size (events : list (option Blob)) : Z :=
  match events with
  | [] => 0%Z
  | Some d :: rest => (blob_size d + emitted_size rest)%Z
  | None :: rest => emitted_size rest
  end.

Fixpoint sizes (parts : list Blob) : Z :=
  match parts with
  | [] => 0%Z
  | d :: rest => (blob_size d + sizes rest)%Z
  end.

(** One recording: [start()] on a new recorder, the [dataavailable] events
    until [stop()] is called, then [stop()]. *)
Definition record (fixWebmDuration : Blob -> Z -> option Blob)
    (el : Element) (its : string -> bool) (now : Z)
    (events : list (option Blob)) (senv : StopEnv)
  : M Event Error RecordingResult :=
  match start its now [] (new_VideoRecorder el) with
  | (_, this, encs) => fst (fst (stop fixWebmDuration senv encs (deliver events this)))
  end.

Definition video0 : Element := {| has_captureStream := true |}.

(** A browser that supports the baseline container only. *)
Definition webm_only (mime : string) : bool := String.eqb mime "video/webm".

Definition fragment (n : nat) : Blob :=
  {| blob_bytes := repeat Byte.x00 n; blob_type := "video/webm" |}.

Definition stop_at (t : Z) (last : list (option Blob)) : StopEnv :=
  {| onstop_fired := true; flushed := last; now_stop := t |}.

(** A repair that succeeds only for a duration of 5000 ms, and a reader of
    the duration for which that repair keeps its promise. *)
Definition repair_5000 (input : Blob) (d : Z) : option Blob :=
  if (d =? 5000)%Z then Some input else None.

Definition reads_5000 (_ : Blob) : option Z := Some 5000%Z.

Definition repair_fails (_ : Blob) (_ : Z) : option Blob := None.

Definition clip0 : Blob := new_Blob [fragment 700; fragment 500] "video/webm".

Definition env0 : StartEnv :=
  {| video := Some video0; canvas := None; isTypeSupported := webm_only;
     now_recorder := 1000; now_component := 1001 |}.

End Recorder.

(** ** The Daydream client: [createDaydreamStream] and its background update *)

Module Daydream.
Import Js.

Record DaydreamStream := {
  id : string;
  output_playback_id : string;
  whip_url : string }.

(** [StreamDiffusionParams]: the required field; the optional ones only
    travel in the request body. *)
Record StreamDiffusionParams := { prompt : string }.

(** A value caught by [catch (error: any)], through what the handler reads
    from it: [error?.message], [error?.error?.error], [JSON.stringify(error)]. *)
Record Caught := {
  c_message : option string;
  c_error_error : option string;
  c_json : string }.

(** [new Error(msg)] seen that way. *)
Definition new_Error (msg : string) : Caught :=
  {| c_message := Some msg; c_error_error := None; c_json := "{}" |}.

(** The edge functions: the answer of [daydream-stream], and the error (if
    any) of the [daydream-prompt] call made by attempt [k]. *)
Record Backend := {
  create_stream_data : option DaydreamStream;
  create_stream_error : option Caught;
  update_prompt_error : nat -> option Caught }.

Inductive Event :=
| Invoke (fn : string)
| Sleep (ms : Z)
| ConsoleWarn (msg : string)
| ConsoleError (msg : string).

Definition Eff := M Event Caught.

Local Open Scope eff_scope.

(** [updateDaydreamPrompts], as called by attempt [k]: one [daydream-prompt]
    invocation; [if (error) throw error]. *)
Definition updateDaydreamPrompts (srv : Backend) (k : nat)
    (streamId : string) (params : StreamDiffusionParams) : Eff unit :=
  emit (Invoke "daydream-prompt") ;;
  match update_prompt_error srv k with
  | Some error => throw error
  | None => ret tt
  end.

(** The test of the [catch] block. *)
Definition isNotReadyError (error : Caught) : bool :=
  let errorStr := c_json error in
  let errorMessage :=
    or_str (c_message error) (or_str (c_error_error error) errorStr) in
  includes errorMessage "not ready"
  || includes errorMessage "Stream not ready"
  || includes errorStr "not ready"
  || includes errorStr "Stream not ready".

(** How one iteration of the [for] loop ends. *)
Inductive Flow := Return | Continue.

(** The [for (attempt = 0; attempt < maxRetries; attempt++)] loop and the
    warning after it; [remaining] is [maxRetries - attempt]. *)
Fixpoint retryLoop (srv : Backend) (streamId : string)
    (params : StreamDiffusionParams) (maxRetries : nat) (delayMs : Z)
    (remaining attempt : nat) {struct remaining} : Eff unit :=
  match remaining with
  | O =>
      emit (ConsoleWarn ("⚠ Failed to update initial stream params after "
                         ++ show (Z.of_nat maxRetries)
                         ++ " retries. Stream will use defaults."))
  | S remaining' =>
      flow <-
        try_catch
          ((if (0 <? attempt)%nat then emit (Sleep delayMs) else ret tt) ;;
           updateDaydreamPrompts srv attempt streamId params ;;
           ret Return)
          (fun error =>
             if isNotReadyError error then ret Continue
             else
               emit (ConsoleError "Non-retryable error updating stream params:") ;;
               emit (ConsoleWarn "Stream will use default parameters") ;;
               ret Return) ;;
      match flow with
      | Return => ret tt
      | Continue => retryLoop srv streamId params maxRetries delayMs
                              remaining' (S attempt)
      end
  end.

Definition updateDaydreamPromptsWithRetry (srv : Backend) (streamId : string)
    (params : StreamDiffusionParams) (maxRetries : nat) (delayMs : Z) : Eff unit :=
  retryLoop srv streamId params maxRetries delayMs maxRetries 0.

Definition default_maxRetries : nat := 10.
Definition default_delayMs : Z := 1000.

(** The promise [updateDaydreamPromptsWithRetry(..).catch(err => ..)] that
    [createDaydreamStream] starts and does not await. *)
Definition backgroundUpdate (srv : Backend) (stream : DaydreamStream)
    (initialParams : StreamDiffusionParams) : Eff unit :=
  try_catch
    (updateDaydreamPromptsWithRetry srv (id stream) initialParams
                                    default_maxRetries default_delayMs)
    (fun _ => emit (ConsoleError "Background param update failed:")).

(** [createDaydreamStream]: what the caller awaits, and the promise left
    running in the background, if one was started. *)
Record Created := {
  awaited : Eff DaydreamStream;
  detached : option (Eff unit) }.

Definition createDaydreamStream (srv : Backend)
    (initialParams : option StreamDiffusionParams) : Created :=
  match create_stream_error srv with
  | Some error =>
      {| awaited := emit (Invoke "daydream-stream") ;; throw error;
         detached := None |}
  | None =>
      match create_stream_data srv with
      | None =>
          {| awaited := emit (Invoke "daydream-stream") ;;
                        throw (new_Error "No stream data returned");
             detached := None |}
      | Some stream =>
          {| awaited := emit (Invoke "daydream-stream") ;; ret stream;
             detached := option_map (backgroundUpdate srv stream) initialParams |}
      end
  end.

(** Number of [daydream-prompt] calls and the waits in a trace. *)
Definition is_attempt (ev : Event) : bool :=
  match ev with
  | Invoke fn => String.eqb fn "daydream-prompt"
  | _ => false
  end.

Definition attempts (t : list Event) : nat := length (filter is_attempt t).

Definition sleeps (t : list Event) : list Z :=
  flat_map (fun ev => match ev with Sleep ms => [ms] | _ => [] end) t.

(** *** Vocabulary of the statements and concrete inputs *)

(** The wait before an attempt that is not the first. *)
Definition wait (attempt : nat) (delayMs : Z) : list Event :=
  if (0 <? attempt)%nat then [Sleep delayMs] else [].

(** The answer to attempt [k] is an error that the test of the [catch]
    block takes for a not-ready one. *)
Definition not_ready_at (srv : Backend) (k : nat) : bool :=
  match update_prompt_error srv k with
  | Some error => isNotReadyError error
  | None => false
  end.

(** The calls and the waits of a trace, in order. *)
Definition is_call_or_wait (ev : Event) : bool :=
  match ev with
  | Invoke _ | Sleep _ => true
  | _ => false
  end.

Definition wire (t : list Event) : list Event := filter is_call_or_wait t.

(** [n] calls of [daydream-prompt], each after a wait of [delayMs]. *)
Definition later_calls (n : nat) (delayMs : Z) : list Event :=
  concat (repeat [Sleep delayMs; Invoke "daydream-prompt"] n).

(** [n] calls of [daydream-prompt], [delayMs] apart, the first at once. *)
Definition spaced_calls (n : nat) (delayMs : Z) : list Event :=
  match n with
  | O => []
  | S n' => Invoke "daydream-prompt" :: later_calls n' delayMs
  end.

Definition quote : string := String (Ascii.ascii_of_nat 34) "".

(** An error whose message says that the stream is not ready yet: one the
    test of the [catch] block recognises.  (The client library that builds
    the errors of [daydream-prompt] is not part of the source: the errors
    are an argument of the model.) *)
Definition not_ready : Caught := new_Error "Stream not ready yet".

(** An error with the fixed message the client library gives to every
    answer with a non-2xx status, whatever its body says, and a JSON text
    made of the error's name and an empty context. *)
Definition non_2xx : Caught :=
  {| c_message := Some "Edge Function returned a non-2xx status code";
     c_error_error := None;
     c_json := "{" ++ quote ++ "name" ++ quote ++ ":" ++ quote
               ++ "FunctionsHttpError" ++ quote ++ "," ++ quote ++ "context"
               ++ quote ++ ":{}}" |}.

Definition stream0 : DaydreamStream :=
  {| id := "stream-1"; output_playback_id := "out-1";
     whip_url := "https://whip.example/stream-1" |}.

Definition srv_ready_at_third : Backend :=
  {| create_stream_data := Some stream0;
     create_stream_error := None;
     update_prompt_error := fun k => if (k <? 2)%nat then Some not_ready else None |}.

Definition srv_never_ready : Backend :=
  {| create_stream_data := Some stream0;
     create_stream_error := None;
     update_prompt_error := fun _ => Some not_ready |}.

Definition srv_non_2xx : Backend :=
  {| create_stream_data := Some stream0;
     create_stream_error := None;
     update_prompt_error := fun _ => Some non_2xx |}.

End Daydream.

(** ** More vocabulary for the uploader *)

Module Polling.
Import Js Uploader.

(** The answer to the status request of attempt [i] lets the loop go on:
    no error, and a status that is none of 'ready', 'failed', 'error'. *)
Definition answer_goes_on (net : Network) (i : nat) : bool :=
  match error (asset_status net i) with
  | None => negb (terminal (status_of (data (asset_status net i))))
  | Some _ => false
  end.

(** The first attempt, among the [remaining] ones from [k] on, whose answer
    stops the loop. *)
Fixpoint first_stop (net : Network) (remaining k : nat) : option nat :=
  match remaining with
  | O => None
  | S remaining' =>
      if answer_goes_on net k then first_stop net remaining' (S k) else Some k
  end.

(** The answer of attempt [i] is read and says 'processing'. *)
Definition processing_at (net : Network) (i : nat) : bool :=
  match error (asset_status net i) with
  | None => status_is (status_of (data (asset_status net i))) "processing"
  | Some _ => false
  end.

Definition is_sleep (ev : Event) : bool :=
  match ev with Sleep _ => true | _ => false end.

Definition is_complete (ev : Event) : bool :=
  match ev with
  | OnProgress p => String.eqb (phase p) "complete"
  | _ => false
  end.

(** An event of the polling stage. *)
Definition poll_event (ev : Event) : bool :=
  match ev with
  | Invoke fn => String.eqb fn "studio-asset-status"
  | TusStart _ _ _ | PutFetch _ _ => false
  | _ => true
  end.

Definition is_ticket_request (ev : Event) : bool :=
  match ev with
  | Invoke fn => String.eqb fn "studio-request-upload"
  | _ => false
  end.

(** A wait is one second long. *)
Definition one_second (ev : Event) : bool :=
  match ev with
  | Sleep ms => (ms =? 1000)%Z
  | _ => true
  end.

(** A progress report of the processing phase carries a value of at most 99. *)
Definition capped (ev : Event) : bool :=
  match ev with
  | OnProgress p =>
      if String.eqb (phase p) "processing" then
        match up_progress p with
        | Some q => Qle_bool q 99
        | None => false
        end
      else true
  | _ => true
  end.

(** What the loop yields, read off the answers: the attempt that stops it
    decides, and without one the loop ends by its condition. *)
Definition poll_outcome (net : Network) (stop : option nat) (last : option AssetData)
  : Result Error (option AssetData) :=
  match stop with
  | None => Ok last
  | Some j =>
      match error (asset_status net j) with
      | Some e => Throw (mkError ("Failed to check asset status: "
                                  ++ or_str (fe_message e) "Unknown error"))
      | None =>
          let a := data (asset_status net j) in
          if status_is (status_of a) "ready" then Ok a
          else Throw (ProcessingFailedError (errorMsg a))
      end
  end.

(** The last answer read when all of the [remaining] attempts from [k] go on. *)
Definition last_answer (net : Network) (remaining k : nat) (ad : option AssetData)
  : option AssetData :=
  match remaining with
  | O => ad
  | S r => data (asset_status net (k + r))
  end.

(** An event of the upload step; its progress reports are of the uploading
    phase. *)
Definition uploading_event (ev : Event) : bool :=
  match ev with
  | OnProgress p => String.eqb (phase p) "uploading"
  | TusStart _ _ _ | PutFetch _ _ | ConsoleError _ => true
  | _ => false
  end.

(** An event of the steps before polling. *)
Definition early_event (ev : Event) : bool :=
  request_event ev || uploading_event ev.

(** 1 when the promise resolves, 0 when it rejects. *)
Definition resolved {A} (r : Result Error A) : nat :=
  match r with Ok _ => 1 | Throw _ => 0 end.

Definition net_no_ticket : Network :=
  {| request_upload := {| data := None; error := Some {| fe_message := Some "quota" |} |};
     tus := {| tus_reports := []; tus_error := None |};
     put := Ok {| put_ok := true; put_status := 200; put_text := None |};
     asset_status := fun _ => reply_status "ready" (Some "pb-final") None |}.

Definition net_status_down : Network :=
  net_of (script [reply_status "queued" None None]
                 {| data := None; error := Some {| fe_message := Some "gateway" |} |}).

Definition net_ready_no_id : Network :=
  net_of (script [reply_status "processing" None None]
                 (reply_status "ready" None None)).

End Polling.

(** ** More vocabulary for the recorder *)

Module Recording.
Import Js Recorder.

(** The bytes the encoder emitted, in the order of the [dataavailable]
    events. *)
Fixpoint emitted_bytes (events : list (option Blob)) : list Byte.byte :=
  match events with
  | [] => []
  | Some d :: rest => (blob_bytes d ++ emitted_bytes rest)%list
  | None :: rest => emitted_bytes rest
  end.

(** The error of a stop that the encoder never confirms. *)
Definition StopTimeoutError : Error := mkError "Recording stop timed out".

(** A browser that supports no candidate encoding. *)
Definition no_encoding (_ : string) : bool := false.


End Recording.

(** ** The request body of [updateDaydreamPrompts] *)

Module Prompts.
Import Js.

(** [a || d] on an optional number: [0] is falsy. *)
Definition or_num (a : option Z) (d : Z) : Z :=
  match a with
  | Some z => if (z =? 0)%Z then d else z
  | None => d
  end.

(** A [Record<string, unknown>]: its entries, the values as JSON text. *)
Definition Dict := list (string * string).

(** An entry of [controlnets]; an optional member that is absent is [None]. *)
Record Controlnet := {
  cn_enabled : option bool;
  cn_model_id : string;
  cn_preprocessor : string;
  cn_preprocessor_params : option Dict;
  cn_conditioning_scale : Q }.

Record IpAdapter := {
  ip_enabled : option bool;
  ip_type : option string;
  ip_scale : option Q;
  ip_weight_type : option string;
  ip_insightface_model_name : option string }.

(** [StreamDiffusionParams], with all its members. *)
Record StreamDiffusionParams := {
  model_id : option string;
  prompt : string;
  negative_prompt : option string;
  num_inference_steps : option Z;
  seed : option Z;
  t_index_list : option (list Z);
  controlnets : option (list Controlnet);
  ip_adapter : option IpAdapter;
  ip_adapter_style_image_url : option string }.

Definition defaultControlnets : list Controlnet :=
  [ {| cn_enabled := Some true;
       cn_model_id := "xinsir/controlnet-depth-sdxl-1.0";
       cn_preprocessor := "depth_tensorrt";
       cn_preprocessor_params := Some [];
       cn_conditioning_scale := (3 # 10)%Q |};
    {| cn_enabled := Some true;
       cn_model_id := "xinsir/controlnet-canny-sdxl-1.0";
       cn_preprocessor := "canny";
       cn_preprocessor_params := Some [];
       cn_conditioning_scale := 0%Q |};
    {| cn_enabled := Some true;
       cn_model_id := "xinsir/controlnet-tile-sdxl-1.0";
       cn_preprocessor := "feedback";
       cn_preprocessor_params := Some [];
       cn_conditioning_scale := 0%Q |} ].

(** [{ enabled: true, preprocessor_params: {}, ...cn }]: the members of
    [cn] override the two defaults. *)
Definition merged (cn : Controlnet) : Controlnet :=
  {| cn_enabled := Some (match cn_enabled cn with Some b => b | None => true end);
     cn_model_id := cn_model_id cn;
     cn_preprocessor := cn_preprocessor cn;
     cn_preprocessor_params :=
       Some (match cn_preprocessor_params cn with Some d => d | None => [] end);
     cn_conditioning_scale := cn_conditioning_scale cn |}.

(** [(params.controlnets || defaultControlnets).map(..)]: an array is
    truthy, the empty one too. *)
Definition mergedControlnets (params : StreamDiffusionParams) : list Controlnet :=
  map merged (match controlnets params with
              | Some cns => cns
              | None => defaultControlnets
              end).

Definition defaultIpAdapter : IpAdapter :=
  {| ip_enabled := Some false;
     ip_type := Some "regular";
     ip_scale := Some 0%Q;
     ip_weight_type := Some "linear";
     ip_insightface_model_name := Some "buffalo_l" |}.

(** The [params] member of the request body; the member
    [ip_adapter_style_image_url] is there when it is [Some]. *)
Record BodyParams := {
  b_model_id : string;
  b_prompt : string;
  b_negative_prompt : string;
  b_num_inference_steps : Z;
  b_seed : Z;
  b_t_index_list : list Z;
  b_controlnets : list Controlnet;
  b_ip_adapter : IpAdapter;
  b_ip_adapter_style_image_url : option string }.

(** [{ streamId, ...body }] *)
Record RequestBody := { streamId : string; params : BodyParams }.

(** The body that [updateDaydreamPrompts] sends to [daydream-prompt]. *)
Definition promptBody (streamId : string) (params : StreamDiffusionParams)
  : RequestBody :=
  {| streamId := streamId;
     params :=
       {| b_model_id := or_str (model_id params) "stabilityai/sdxl-turbo";
          b_prompt := prompt params;
          b_negative_prompt :=
            or_str (negative_prompt params) "blurry, low quality, flat, 2d, distorted";
          b_num_inference_steps := or_num (num_inference_steps params) 50;
          b_seed := or_num (seed params) 42;
          b_t_index_list := match t_index_list params with
                            | Some l => l
                            | None => [6; 12; 18]%Z
                            end;
          b_controlnets := mergedControlnets params;
          b_ip_adapter := match ip_adapter params with
                          | Some a => a
                          | None => defaultIpAdapter
                          end;
          b_ip_adapter_style_image_url :=
            if truthy (ip_adapter_style_image_url params)
            then ip_adapter_style_image_url params
            else None |} |}.

(** *** Vocabulary of the statements *)


(** Parameters with the prompt only. *)
Definition prompt_only (p : string) : StreamDiffusionParams :=
  {| model_id := None; prompt := p; negative_prompt := None;
     num_inference_steps := None; seed := None; t_index_list := None;
     controlnets := None; ip_adapter := None;
     ip_adapter_style_image_url := None |}.

End Prompts.

(** * Properties *)

(** ** Laws of the effect combinators *)

Section Laws.
Variables Ev E : Type.
Local Open Scope eff_scope.

Lemma bind_emit A (ev : Ev) (k : unit -> M Ev E A) :
  bind (emit ev) k = (ev :: trace_of (k tt), result_of (k tt)).
Proof. unfold bind, emit, trace_of, result_of. destruct (k tt); reflexivity. Qed.

Lemma bind_ret A B (a : A) (k : A -> M Ev E B) : bind (ret a) k = k a.
Proof. unfold bind, ret. destruct (k a); reflexivity. Qed.

Lemma bind_throw A B (e : E) (k : A -> M Ev E B) : bind (throw e) k = throw e.
Proof. reflexivity. Qed.

Lemma bind_ok A B (m : M Ev E A) (k : A -> M Ev E B) a :
  result_of m = Ok a ->
  bind m k = ((trace_of m ++ trace_of (k a))%list, result_of (k a)).
Proof.
  destruct m as [t r]; simpl; intros ->. unfold bind, trace_of, result_of.
  destruct (k a); reflexivity.
Qed.

Lemma bind_pair_ok A B (t : list Ev) (a : A) (k : A -> M Ev E B) :
  bind (t, Ok a) k = ((t ++ trace_of (k a))%list, result_of (k a)).
Proof. apply (@bind_ok A B (t, Ok a) k a). reflexivity. Qed.

Lemma bind_fail A B (m : M Ev E A) (k : A -> M Ev E B) e :
  result_of m = Throw e -> bind m k = (trace_of m, Throw e).
Proof. destruct m as [t r]; simpl; intros ->. reflexivity. Qed.

Lemma run_eta A (m : M Ev E A) : m = (trace_of m, result_of m).
Proof. destruct m; reflexivity. Qed.

Lemma trace_of_pair A (t : list Ev) (r : Result E A) : trace_of (t, r) = t.
Proof. reflexivity. Qed.

Lemma result_of_pair A (t : list Ev) (r : Result E A) : result_of (t, r) = r.
Proof. reflexivity. Qed.

Lemma trace_bind_ok A B (m : M Ev E A) (k : A -> M Ev E B) a :
  result_of m = Ok a ->
  trace_of (bind m k) = (trace_of m ++ trace_of (k a))%list.
Proof. intros H. now rewrite (bind_ok _ _ H). Qed.

Lemma result_bind_ok A B (m : M Ev E A) (k : A -> M Ev E B) a :
  result_of m = Ok a -> result_of (bind m k) = result_of (k a).
Proof. intros H. now rewrite (bind_ok _ _ H). Qed.

Lemma trace_bind_fail A B (m : M Ev E A) (k : A -> M Ev E B) e :
  result_of m = Throw e -> trace_of (bind m k) = trace_of m.
Proof. intros H. now rewrite (bind_fail _ _ H). Qed.

Lemma result_bind_fail A B (m : M Ev E A) (k : A -> M Ev E B) e :
  result_of m = Throw e -> result_of (bind m k) = Throw e.
Proof. intros H. now rewrite (bind_fail _ _ H). Qed.
End Laws.

(** ** The uploader *)

Module UploaderFacts.
Import Js Uploader.
Local Open Scope eff_scope.

Lemma polls_app t1 t2 : polls (t1 ++ t2) = (polls t1 + polls t2)%nat.
Proof. unfold polls. now rewrite filter_app, length_app. Qed.

Lemma terminal_false s :
  terminal s = false ->
  status_is s "ready" = false /\ status_is s "failed" = false
  /\ status_is s "error" = false.
Proof.
  unfold terminal. intros H.
  apply orb_false_iff in H as [H ?]. apply orb_false_iff in H as [? ?]. auto.
Qed.

Lemma pollLoop_continue net ud r k udc ad :
  error (asset_status net k) = None ->
  terminal (status_of (data (asset_status net k))) = false ->
  pollLoop net ud (S r) k udc ad =
  let a := data (asset_status net k) in
  let next := pollLoop net ud r (S k)
                (udc || (negb udc && status_is (status_of a) "processing")) a in
  ((iteration ud a k udc ++ trace_of next)%list, result_of next).
Proof.
  intros He Ht. apply terminal_false in Ht as (Hr & Hf & Hx).
  cbn [pollLoop]. rewrite He. cbv zeta.
  rewrite bind_emit. unfold iteration.
  destruct (negb udc && status_is (status_of (data (asset_status net k))) "processing");
    [rewrite bind_emit | rewrite bind_ret];
    rewrite bind_emit, Hr, Hf, Hx; cbn [orb];
    rewrite bind_emit; reflexivity.
Qed.

Lemma pollLoop_ready net ud r k udc ad :
  error (asset_status net k) = None ->
  status_is (status_of (data (asset_status net k))) "ready" = true ->
  pollLoop net ud (S r) k udc ad =
  (last_iteration ud (data (asset_status net k)) k udc,
   Ok (data (asset_status net k))).
Proof.
  intros He Hr. cbn [pollLoop]. rewrite He. cbv zeta.
  rewrite bind_emit. unfold last_iteration.
  destruct (negb udc && status_is (status_of (data (asset_status net k))) "processing");
    [rewrite bind_emit | rewrite bind_ret];
    rewrite bind_emit, Hr; reflexivity.
Qed.

Lemma pollLoop_failed net ud r k udc ad :
  error (asset_status net k) = None ->
  status_is (status_of (data (asset_status net k))) "ready" = false ->
  status_is (status_of (data (asset_status net k))) "failed"
  || status_is (status_of (data (asset_status net k))) "error" = true ->
  pollLoop net ud (S r) k udc ad =
  ((last_iteration ud (data (asset_status net k)) k udc
    ++ [ConsoleError "Asset processing failed:"])%list,
   Throw (ProcessingFailedError (errorMsg (data (asset_status net k))))).
Proof.
  intros He Hr Hf. cbn [pollLoop]. rewrite He. cbv zeta.
  rewrite bind_emit. unfold last_iteration.
  destruct (negb udc && status_is (status_of (data (asset_status net k))) "processing");
    [rewrite bind_emit | rewrite bind_ret];
    rewrite bind_emit, Hr, Hf, bind_emit; reflexivity.
Qed.

Lemma polls_iteration ud a k udc : polls (iteration ud a k udc) = 1%nat.
Proof. unfold iteration. destruct (negb udc && _); reflexivity. Qed.

Lemma polls_last_iteration ud a k udc : polls (last_iteration ud a k udc) = 1%nat.
Proof. unfold last_iteration. destruct (negb udc && _); reflexivity. Qed.

(** *** The upload step, case by case *)

Lemma upload_run net ud b filename :
  upload net ud b filename = (upload_trace net ud b filename, upload_result net ud).
Proof.
  unfold upload, upload_trace, upload_result, put_attempted, tus_succeeded, tusUpload.
  destruct (truthy (tusEndpoint ud));
    destruct (tus_error (tus net)) as [msg|];
    destruct (truthy (uploadUrl ud));
    destruct (put net) as [putResponse|e];
    cbn -[show String.append];
    try destruct (put_ok putResponse);
    cbn -[show String.append];
    repeat rewrite <- app_assoc; cbn [app]; rewrite ?app_nil_r; reflexivity.
Qed.

Lemma filter_map_none A B (f : B -> bool) (g : A -> B) l :
  (forall x, f (g x) = false) -> filter f (map g l) = [].
Proof. intros H. induction l; simpl; [|rewrite H]; auto. Qed.

Lemma upload_events net ud b filename :
  forallb upload_event (upload_trace net ud b filename) = true.
Proof.
  unfold upload_trace. rewrite forallb_app. apply andb_true_iff. split.
  - destruct (truthy (tusEndpoint ud)); [|reflexivity]. cbn.
    rewrite forallb_app. apply andb_true_iff. split.
    + apply forallb_forall. intros x Hx. apply in_map_iff in Hx as (r & <- & _).
      reflexivity.
    + destruct (tus_error (tus net)); reflexivity.
  - destruct (put_attempted net ud); [|reflexivity].
    destruct (put net) as [putResponse|e]; [|reflexivity].
    destruct (put_ok putResponse); reflexivity.
Qed.

Lemma filter_none A (f g : A -> bool) l :
  forallb g l = true -> (forall x, g x = true -> f x = false) -> filter f l = [].
Proof.
  intros Hl Hfg. induction l as [|x l IH]; simpl in *; [reflexivity|].
  apply andb_true_iff in Hl as [Hx Hl]. rewrite (Hfg _ Hx). auto.
Qed.

Lemma upload_no_poll net ud b filename :
  filter is_poll (trace_of (upload net ud b filename)) = [].
Proof.
  rewrite upload_run. apply filter_none with (g := upload_event).
  - apply upload_events.
  - now intros [].
Qed.

Lemma upload_no_upload_done net ud b filename :
  filter is_upload_done (trace_of (upload net ud b filename)) = [].
Proof.
  rewrite upload_run. apply filter_none with (g := upload_event).
  - apply upload_events.
  - now intros [].
Qed.

Lemma request_events net : forallb request_event (trace_of (requestUpload net)) = true.
Proof.
  unfold requestUpload.
  destruct (error (request_upload net)); [reflexivity|].
  destruct (data (request_upload net)) as [ud|]; [|reflexivity].
  destruct (truthy (assetId ud)); reflexivity.
Qed.

Lemma request_no_poll net : filter is_poll (trace_of (requestUpload net)) = [].
Proof.
  apply filter_none with (g := request_event); [apply request_events|].
  intros [fn| | | | | |]; simpl; try discriminate; auto.
  intros H. apply String.eqb_eq in H. now subst.
Qed.

Lemma request_no_upload_done net :
  filter is_upload_done (trace_of (requestUpload net)) = [].
Proof.
  apply filter_none with (g := request_event); [apply request_events|].
  now intros [].
Qed.

Lemma uploadToLivepeer_delivered net b filename ud :
  delivered net b filename ud ->
  uploadToLivepeer net b filename =
  ((trace_of (requestUpload net) ++ trace_of (upload net ud b filename)
    ++ trace_of (poll net ud))%list,
   result_of (poll net ud)).
Proof.
  intros [Hr Hu]. rewrite (run_eta (uploadToLivepeer net b filename)).
  unfold uploadToLivepeer.
  rewrite (trace_bind_ok _ _ Hr), (result_bind_ok _ _ Hr).
  rewrite (trace_bind_ok _ _ Hu), (result_bind_ok _ _ Hu).
  reflexivity.
Qed.

Lemma uploadToLivepeer_polls net b filename ud :
  delivered net b filename ud ->
  polls (trace_of (uploadToLivepeer net b filename)) = polls (trace_of (poll net ud)).
Proof.
  intros H. rewrite (uploadToLivepeer_delivered H), trace_of_pair.
  rewrite !polls_app. unfold polls at 1 2.
  now rewrite request_no_poll, upload_no_poll.
Qed.

(** *** Polling *)

(** [j] iterations that go on: [j] status requests, then the rest of the loop. *)
Lemma pollLoop_goes_on net ud j : forall r k udc ad,
  (forall i, (k <= i < k + j)%nat -> goes_on net i) ->
  exists pre udc' ad',
    pollLoop net ud (j + r) k udc ad =
      ((pre ++ trace_of (pollLoop net ud r (k + j) udc' ad'))%list,
       result_of (pollLoop net ud r (k + j) udc' ad'))
    /\ polls pre = j
    /\ (status_is (status_of ad) "ready" = false ->
        status_is (status_of ad') "ready" = false).
Proof.
  induction j as [|j IH]; intros r k udc ad H.
  - exists [], udc, ad. rewrite Nat.add_0_r. cbn [Nat.add app].
    split; [apply run_eta | auto].
  - destruct (H k ltac:(lia)) as [He Ht].
    destruct (IH r (S k)
                (udc || (negb udc
                         && status_is (status_of (data (asset_status net k))) "processing"))
                (data (asset_status net k))) as (pre & udc' & ad' & Hrun & Hp & Hs).
    { intros i Hi. apply H. lia. }
    exists (iteration ud (data (asset_status net k)) k udc ++ pre)%list, udc', ad'.
    replace (k + S j)%nat with (S k + j)%nat by lia.
    cbn [Nat.add]. rewrite (@pollLoop_continue net ud (j + r) k udc ad He Ht). cbv zeta.
    rewrite Hrun. cbn [trace_of result_of fst snd].
    rewrite <- app_assoc. split; [reflexivity|]. split.
    + rewrite polls_app, polls_iteration, Hp. reflexivity.
    + intros _. apply Hs. now apply terminal_false in Ht.
Qed.

(** When every iteration the condition allows goes on, the loop ends by its
    condition after [j] status requests, the last answer not being 'ready'. *)
Lemma pollLoop_exhausted net ud j k udc ad :
  (forall i, (k <= i < k + j)%nat -> goes_on net i) ->
  status_is (status_of ad) "ready" = false ->
  exists pre ad',
    pollLoop net ud j k udc ad = (pre, Ok ad')
    /\ polls pre = j
    /\ status_is (status_of ad') "ready" = false.
Proof.
  intros H Hready.
  destruct (@pollLoop_goes_on net ud j 0 k udc ad H)
    as (pre & udc' & ad' & Hrun & Hp & Hs).
  rewrite Nat.add_0_r in Hrun. cbn [pollLoop] in Hrun.
  exists pre, ad'. rewrite Hrun. unfold ret. cbn [trace_of result_of fst snd].
  rewrite app_nil_r. auto.
Qed.

Lemma polls_finish ud ad : polls (trace_of (finish ud ad)) = 0%nat.
Proof.
  unfold finish. destruct (negb _); [reflexivity|].
  destruct ad as [a|]; [|reflexivity]. destruct (truthy (playbackId a)); reflexivity.
Qed.

Lemma finish_not_ready ud ad :
  status_is (status_of ad) "ready" = false ->
  result_of (finish ud ad) = Throw ProcessingTimeoutError.
Proof. unfold finish. intros ->. reflexivity. Qed.

Lemma maxAttempts_300 : maxAttempts = 300%nat.
Proof. reflexivity. Qed.

(** C4, as amended: when none of the 300 status answers carries 'ready',
    'failed' or 'error' (the three statuses at which the loop stops), the
    uploader rejects with the timeout error after exactly 300 status
    requests and makes no further one. *)
Theorem poll_times_out_after_300_polls net b filename ud :
  delivered net b filename ud ->
  (forall i, (i < 300)%nat ->
     error (asset_status net i) = None
     /\ status_is (status_of (data (asset_status net i))) "ready" = false
     /\ status_is (status_of (data (asset_status net i))) "failed" = false
     /\ status_is (status_of (data (asset_status net i))) "error" = false) ->
  result_of (uploadToLivepeer net b filename) = Throw ProcessingTimeoutError
  /\ polls (trace_of (uploadToLivepeer net b filename)) = 300%nat.
Proof.
  rewrite <- maxAttempts_300. intros Hd H.
  destruct (@pollLoop_exhausted net ud maxAttempts 0 false None)
    as (pre & ad' & Hrun & Hp & Hs); [|reflexivity|].
  { intros i Hi. destruct (H i ltac:(lia)) as (He & Hr & Hf & Hx).
    split; [exact He|]. unfold terminal. now rewrite Hr, Hf, Hx. }
  rewrite (uploadToLivepeer_polls Hd), (uploadToLivepeer_delivered Hd).
  rewrite result_of_pair. unfold poll.
  assert (Hok : result_of (pollLoop net ud maxAttempts 0 false None) = Ok ad')
    by now rewrite Hrun.
  rewrite (result_bind_ok _ _ Hok), (trace_bind_ok _ _ Hok), Hrun.
  rewrite trace_of_pair. split; [now apply finish_not_ready|].
  rewrite polls_app, Hp, polls_finish. apply Nat.add_0_r.
Qed.

(** *** The timeout and the failed status *)

Lemma net_of_delivered statuses : delivered (net_of statuses) blob0 "clip.webm" ticket0.
Proof. split; reflexivity. Qed.

Lemma poll_times_out_witness :
  result_of (uploadToLivepeer net_queued blob0 "clip.webm") = Throw ProcessingTimeoutError
  /\ polls (trace_of (uploadToLivepeer net_queued blob0 "clip.webm")) = 300%nat.
Proof.
  apply (@poll_times_out_after_300_polls net_queued blob0 "clip.webm" ticket0).
  - split; reflexivity.
  - intros i _. repeat split; reflexivity.
Defined.

(** C4, as stated, fails: a status sequence of 'error' answers never reaches
    'ready' or 'failed' within 300 polls, yet the uploader rejects at the
    first poll with the processing failure, not with the timeout. *)
Lemma poll_error_status_is_not_a_timeout :
  delivered net_error blob0 "clip.webm" ticket0
  /\ (forall i, (i < 300)%nat ->
        error (asset_status net_error i) = None
        /\ status_is (status_of (data (asset_status net_error i))) "ready" = false
        /\ status_is (status_of (data (asset_status net_error i))) "failed" = false)
  /\ result_of (uploadToLivepeer net_error blob0 "clip.webm")
     = Throw (ProcessingFailedError "Unknown processing error")
  /\ result_of (uploadToLivepeer net_error blob0 "clip.webm")
     <> Throw ProcessingTimeoutError
  /\ polls (trace_of (uploadToLivepeer net_error blob0 "clip.webm")) = 1%nat.
Proof.
  split; [apply net_of_delivered|]. split; [intros i _; repeat split; reflexivity|].
  split; [vm_compute; reflexivity|]. split; [vm_compute; discriminate|].
  vm_compute; reflexivity.
Qed.

(** C5: when the status answer of some attempt (the loop having gone on until
    then, within the 300 attempts) is 'failed', the uploader rejects at once
    with the processing failure carrying the reason the server reported, and
    that status request is the last one. *)
Theorem poll_failed_rejects_immediately net b filename ud k a :
  delivered net b filename ud ->
  (k < 300)%nat ->
  (forall i, (i < k)%nat -> goes_on net i) ->
  asset_status net k = {| data := Some a; error := None |} ->
  status a = Some "failed" ->
  result_of (uploadToLivepeer net b filename)
  = Throw (ProcessingFailedError (errorMsg (Some a)))
  /\ polls (trace_of (uploadToLivepeer net b filename)) = S k
  /\ (forall reason,
        asset_error a = Some {| ae_message := Some reason |} ->
        reason <> "" ->
        errorMsg (Some a) = reason).
Proof.
  rewrite <- maxAttempts_300. intros Hd Hk Hpre Hans Hst.
  destruct (@pollLoop_goes_on net ud k (maxAttempts - k) 0 false None)
    as (pre & udc' & ad' & Hrun & Hp & _).
  { intros i Hi. apply Hpre. lia. }
  replace (k + (maxAttempts - k))%nat with maxAttempts in Hrun by lia.
  cbn [Nat.add] in Hrun.
  destruct (maxAttempts - k)%nat as [|r] eqn:Hr; [lia|].
  assert (He : error (asset_status net k) = None) by now rewrite Hans.
  assert (Hd' : data (asset_status net k) = Some a) by now rewrite Hans.
  rewrite (@pollLoop_failed net ud r k udc' ad' He) in Hrun;
    [| rewrite Hd'; cbn; now rewrite Hst | rewrite Hd'; cbn; now rewrite Hst ].
  rewrite trace_of_pair, result_of_pair, Hd' in Hrun.
  assert (Hfail : result_of (pollLoop net ud maxAttempts 0 false None)
                  = Throw (ProcessingFailedError (errorMsg (Some a))))
    by now rewrite Hrun.
  rewrite (uploadToLivepeer_polls Hd), (uploadToLivepeer_delivered Hd).
  rewrite result_of_pair. unfold poll.
  rewrite (result_bind_fail _ _ Hfail), (trace_bind_fail _ _ Hfail), Hrun.
  rewrite trace_of_pair. split; [reflexivity|]. split.
  - rewrite !polls_app, Hp, polls_last_iteration. cbn. lia.
  - intros reason Hreason Hne. unfold errorMsg. rewrite Hreason. cbn.
    destruct (String.eqb_spec reason ""); [contradiction|reflexivity].
Qed.

Lemma poll_failed_witness :
  result_of (uploadToLivepeer net_failed_third blob0 "clip.webm")
  = Throw (ProcessingFailedError "codec not supported")
  /\ polls (trace_of (uploadToLivepeer net_failed_third blob0 "clip.webm")) = 3%nat.
Proof.
  destruct (@poll_failed_rejects_immediately net_failed_third blob0 "clip.webm" ticket0 2
              {| status := Some "failed"; playbackId := None; downloadUrl := None;
                 asset_error := Some {| ae_message := Some "codec not supported" |};
                 progress := None |})
    as (Hres & Hpolls & _).
  - apply net_of_delivered.
  - lia.
  - intros i Hi. destruct i as [|[|i]]; [split; reflexivity | split; reflexivity | lia].
  - reflexivity.
  - reflexivity.
  - split; [exact Hres | exact Hpolls].
Defined.

(** *** The script queued, processing, processing, ready *)

Lemma answered net k a :
  asset_status net k = {| data := Some a; error := None |} ->
  error (asset_status net k) = None /\ data (asset_status net k) = Some a.
Proof. intros ->. split; reflexivity. Qed.

Lemma truthy_nonempty p : p <> "" -> truthy (Some p) = true /\ or_str (Some p) "" = p.
Proof.
  intros Hp. unfold truthy, or_str.
  destruct (String.eqb_spec p ""); [contradiction|]. split; reflexivity.
Qed.

Lemma poll_script4 net ud a0 a1 a2 a3 p :
  asset_status net 0 = {| data := Some a0; error := None |} ->
  asset_status net 1 = {| data := Some a1; error := None |} ->
  asset_status net 2 = {| data := Some a2; error := None |} ->
  asset_status net 3 = {| data := Some a3; error := None |} ->
  status a0 = Some "queued" ->
  status a1 = Some "processing" ->
  status a2 = Some "processing" ->
  status a3 = Some "ready" ->
  playbackId a3 = Some p -> p <> "" ->
  poll net ud =
  (script4_trace ud a0 a1 a2 a3,
   Ok {| ur_assetId := assetId ud; ur_playbackId := p;
         ur_downloadUrl := downloadUrl a3;
         ur_rawUploadedFileUrl := rawUploadedFileUrl ud |}).
Proof.
  intros H0 H1 H2 H3 S0 S1 S2 S3 Hp Hne.
  apply answered in H0 as [E0 D0], H1 as [E1 D1], H2 as [E2 D2], H3 as [E3 D3].
  destruct (truthy_nonempty Hne) as [Ht Ho].
  unfold poll. rewrite maxAttempts_300.
  change 300%nat with (S (S (S (S 296)))).
  rewrite (@pollLoop_continue net ud _ 0 false None E0)
    by (rewrite D0; cbn; now rewrite S0).
  cbv zeta.
  rewrite (@pollLoop_continue net ud _ 1 _ _ E1)
    by (rewrite D1; cbn; now rewrite S1).
  cbv zeta.
  rewrite (@pollLoop_continue net ud _ 2 _ _ E2)
    by (rewrite D2; cbn; now rewrite S2).
  cbv zeta.
  rewrite (@pollLoop_ready net ud _ 3 _ _ E3)
    by (rewrite D3; cbn; now rewrite S3).
  rewrite !trace_of_pair, !result_of_pair.
  unfold iteration, last_iteration.
  rewrite D0, D1, D2, D3. cbn [status_of]. rewrite S0, S1, S2, S3.
  cbn [status_is String.eqb Ascii.eqb Bool.eqb negb andb orb app].
  rewrite bind_pair_ok. unfold finish. cbn [status_of]. rewrite S3.
  cbn [status_is String.eqb Ascii.eqb Bool.eqb negb].
  rewrite Hp, Ht, Ho, bind_emit. reflexivity.
Qed.

(** C1: on the scripted status sequence queued, processing, processing,
    ready, [onUploadDone] is called exactly once, right after the second
    status request (the first that answers 'processing') and before the
    third, and the upload resolves with the [playbackId] of the 'ready'
    answer. *)
Theorem upload_done_once_then_ready_playbackId net b filename ud a0 a1 a2 a3 p :
  delivered net b filename ud ->
  asset_status net 0 = {| data := Some a0; error := None |} ->
  asset_status net 1 = {| data := Some a1; error := None |} ->
  asset_status net 2 = {| data := Some a2; error := None |} ->
  asset_status net 3 = {| data := Some a3; error := None |} ->
  status a0 = Some "queued" ->
  status a1 = Some "processing" ->
  status a2 = Some "processing" ->
  status a3 = Some "ready" ->
  playbackId a3 = Some p -> p <> "" ->
  let run := uploadToLivepeer net b filename in
  result_of run
  = Ok {| ur_assetId := assetId ud; ur_playbackId := p;
          ur_downloadUrl := downloadUrl a3;
          ur_rawUploadedFileUrl := rawUploadedFileUrl ud |}
  /\ trace_of run
     = (trace_of (requestUpload net) ++ trace_of (upload net ud b filename)
        ++ script4_trace ud a0 a1 a2 a3)%list
  /\ filter is_upload_done (trace_of run) = [OnUploadDone (uploadDoneResult ud)]
  /\ polls (trace_of run) = 4%nat.
Proof.
  intros Hd H0 H1 H2 H3 S0 S1 S2 S3 Hp Hne run. subst run.
  pose proof (@poll_script4 net ud a0 a1 a2 a3 p H0 H1 H2 H3 S0 S1 S2 S3 Hp Hne) as Hpoll.
  rewrite (uploadToLivepeer_polls Hd), (uploadToLivepeer_delivered Hd).
  rewrite trace_of_pair, result_of_pair, Hpoll, trace_of_pair, result_of_pair.
  split; [reflexivity|]. split; [reflexivity|]. split; [|reflexivity].
  rewrite !filter_app, request_no_upload_done, upload_no_upload_done.
  reflexivity.
Qed.

Lemma upload_done_once_witness :
  result_of (uploadToLivepeer net_script4 blob0 "clip.webm")
  = Ok {| ur_assetId := Some "asset-1"; ur_playbackId := "pb-final";
          ur_downloadUrl := None; ur_rawUploadedFileUrl := None |}
  /\ filter is_upload_done (trace_of (uploadToLivepeer net_script4 blob0 "clip.webm"))
     = [OnUploadDone (uploadDoneResult ticket0)].
Proof.
  destruct (@upload_done_once_then_ready_playbackId
              net_script4 blob0 "clip.webm" ticket0
              {| status := Some "queued"; playbackId := None; downloadUrl := None;
                 asset_error := None; progress := None |}
              {| status := Some "processing"; playbackId := None; downloadUrl := None;
                 asset_error := None; progress := None |}
              {| status := Some "processing"; playbackId := None; downloadUrl := None;
                 asset_error := None; progress := None |}
              {| status := Some "ready"; playbackId := Some "pb-final";
                 downloadUrl := None; asset_error := None; progress := None |}
              "pb-final")
    as (Hres & _ & Hdone & _);
    try reflexivity.
  - apply net_of_delivered.
  - discriminate.
  - split; [exact Hres | exact Hdone].
Defined.

(** *** Resumable upload first, direct write as the fallback *)

Lemma fractions_reports l : fractions (map byteProgress l) = map ratio l.
Proof. induction l as [|r l IH]; [reflexivity|]. cbn. now f_equal. Qed.

Lemma fractions_app t1 t2 : fractions (t1 ++ t2) = (fractions t1 ++ fractions t2)%list.
Proof. apply flat_map_app. Qed.

Lemma count_app f t1 t2 : count f (t1 ++ t2) = (count f t1 + count f t2)%nat.
Proof. unfold count. now rewrite filter_app, length_app. Qed.

Lemma count_reports f l :
  (forall r, f (byteProgress r) = false) -> count f (map byteProgress l) = 0%nat.
Proof. intros H. unfold count. now rewrite filter_map_none. Qed.

Lemma uploadToLivepeer_upload_fails net b filename ud e :
  result_of (requestUpload net) = Ok ud ->
  result_of (upload net ud b filename) = Throw e ->
  result_of (uploadToLivepeer net b filename) = Throw e
  /\ polls (trace_of (uploadToLivepeer net b filename)) = 0%nat.
Proof.
  intros Hr Hu. unfold uploadToLivepeer.
  rewrite (result_bind_ok _ _ Hr), (trace_bind_ok _ _ Hr).
  rewrite (result_bind_fail _ _ Hu), (trace_bind_fail _ _ Hu).
  split; [reflexivity|]. rewrite polls_app. unfold polls.
  now rewrite request_no_poll, upload_no_poll.
Qed.

(** The upload step starts one resumable (TUS) upload exactly when the
    ticket offers a resumable endpoint and forwards every byte count the TUS
    client reports as a progress fraction; it makes one direct PUT write
    exactly when the resumable upload was not offered or failed and the
    ticket offers a direct URL; it succeeds when either succeeds.  When the
    direct write is not offered, or is answered with a response that is not
    [ok], the uploader fails with an 'Upload failed' error, before any
    status request.  When the PUT [fetch] itself rejects, its error is what
    the uploader fails with. *)
Lemma tus_upload_then_put_fallback net b filename ud :
  let run := upload net ud b filename in
  count is_tus_start (trace_of run) = (if truthy (tusEndpoint ud) then 1 else 0)%nat
  /\ fractions (trace_of run)
     = (if truthy (tusEndpoint ud) then map ratio (tus_reports (tus net)) else [])
  /\ count is_put (trace_of run)
     = (if negb (tus_succeeded net ud) && truthy (uploadUrl ud) then 1 else 0)%nat
  /\ (tus_succeeded net ud = true
      \/ (tus_succeeded net ud = false /\ truthy (uploadUrl ud) = true
          /\ put_succeeded net = true) ->
      result_of run = Ok tt)
  /\ (tus_succeeded net ud = false ->
      truthy (uploadUrl ud) = false
      \/ (exists putResponse, put net = Ok putResponse /\ put_ok putResponse = false) ->
      exists e, result_of run = Throw e /\ UploadError e
                /\ (result_of (requestUpload net) = Ok ud ->
                    result_of (uploadToLivepeer net b filename) = Throw e
                    /\ polls (trace_of (uploadToLivepeer net b filename)) = 0%nat))
  /\ (forall e, tus_succeeded net ud = false -> truthy (uploadUrl ud) = true ->
      put net = Throw e ->
      result_of run = Throw e
      /\ (result_of (requestUpload net) = Ok ud ->
          result_of (uploadToLivepeer net b filename) = Throw e
          /\ polls (trace_of (uploadToLivepeer net b filename)) = 0%nat)).
Proof.
  cbv zeta.
  assert (Hfail : forall e, result_of (upload net ud b filename) = Throw e ->
            UploadError e ->
            exists e, result_of (upload net ud b filename) = Throw e /\ UploadError e
              /\ (result_of (requestUpload net) = Ok ud ->
                  result_of (uploadToLivepeer net b filename) = Throw e
                  /\ polls (trace_of (uploadToLivepeer net b filename)) = 0%nat)).
  { intros e He Hu. exists e. split; [exact He|]. split; [exact Hu|].
    intros Hr. exact (@uploadToLivepeer_upload_fails net b filename ud e Hr He). }
  assert (Hescape : forall e, result_of (upload net ud b filename) = Throw e ->
            result_of (upload net ud b filename) = Throw e
            /\ (result_of (requestUpload net) = Ok ud ->
                result_of (uploadToLivepeer net b filename) = Throw e
                /\ polls (trace_of (uploadToLivepeer net b filename)) = 0%nat)).
  { intros e He. split; [exact He|].
    intros Hr. exact (@uploadToLivepeer_upload_fails net b filename ud e Hr He). }
  revert Hfail Hescape. rewrite upload_run, trace_of_pair, result_of_pair.
  unfold upload_trace, upload_result, put_attempted, tus_succeeded, put_succeeded.
  intros Hfail Hescape. rewrite !count_app, fractions_app.
  assert (Hc1 : forall x y, count is_tus_start
            (startProgress :: x :: map byteProgress (tus_reports (tus net)) ++ y)
            = (count is_tus_start [x] + count is_tus_start y)%nat).
  { intros x y. change (startProgress :: x :: ?l) with ([startProgress; x] ++ l)%list.
    rewrite !count_app, count_reports by reflexivity. reflexivity. }
  assert (Hc2 : forall x y, count is_put
            (startProgress :: x :: map byteProgress (tus_reports (tus net)) ++ y)
            = (count is_put [x] + count is_put y)%nat).
  { intros x y. change (startProgress :: x :: ?l) with ([startProgress; x] ++ l)%list.
    rewrite !count_app, count_reports by reflexivity. reflexivity. }
  assert (Hf : forall x y, fractions
            (startProgress :: x :: map byteProgress (tus_reports (tus net)) ++ y)
            = (fractions [x] ++ map ratio (tus_reports (tus net)) ++ fractions y)%list).
  { intros x y. change (startProgress :: x :: ?l) with ([startProgress; x] ++ l)%list.
    rewrite !fractions_app, fractions_reports. reflexivity. }
  destruct (truthy (tusEndpoint ud)); [rewrite Hc1, Hc2, Hf|];
    destruct (tus_error (tus net)) as [msg|];
    destruct (truthy (uploadUrl ud));
    destruct (put net) as [putResponse|e0];
    try destruct (put_ok putResponse) eqn:Hok;
    cbn [andb negb] in *; rewrite ?app_nil_r;
    (split; [reflexivity
     |split; [reflexivity
     |split; [reflexivity
     |split; [intros [H|(H1 & H2 & H3)]; first [reflexivity | discriminate]
     |split; [intros H1 [H2|(r & H2 & H3)];
              first [discriminate
                    | injection H2 as <-; congruence
                    | eapply Hfail; [reflexivity | unfold UploadError; reflexivity]]
             |intros e H1 H2 H3;
              first [discriminate
                    | injection H3 as <-; apply Hescape; reflexivity]]]]]]).
Qed.

(** *** The fallback on concrete networks *)

Example put_fallback_after_tus_failure :
  upload (net_tus_down (Ok {| put_ok := true; put_status := 200; put_text := None |}))
         ticket0 blob0 "clip.webm"
  = ([startProgress;
      TusStart "https://tus.example/files" "clip.webm" "video/webm";
      byteProgress (250, 1000)%Z;
      ConsoleError "TUS upload failed:";
      ConsoleError "TUS upload failed:";
      startProgress;
      PutFetch "https://put.example/asset-1" "video/webm"],
     Ok tt).
Proof. reflexivity. Qed.

Example both_uploads_fail :
  result_of (uploadToLivepeer
               (net_tus_down (Ok {| put_ok := false; put_status := 500;
                                    put_text := Some "boom" |}))
               blob0 "clip.webm")
  = Throw (mkError "Upload failed: 500 - boom")
  /\ polls (trace_of (uploadToLivepeer
                        (net_tus_down (Ok {| put_ok := false; put_status := 500;
                                             put_text := Some "boom" |}))
                        blob0 "clip.webm")) = 0%nat.
Proof. split; vm_compute; reflexivity. Qed.

(** C7, where the code departs from it: offline, the resumable upload fails
    and the direct write fails too, its [fetch] rejecting.  Neither upload
    succeeded, yet the uploader does not fail with an 'Upload failed'
    error: the [await fetch(..)] stands outside any [try], so the error of
    [fetch] leaves [uploadToLivepeer] as it is, without the
    'PUT upload failed:' log line of the sibling branch. *)
Theorem put_fetch_rejection_escapes_upload_error :
  uploadToLivepeer net_offline blob0 "clip.webm"
  = ([Invoke "studio-request-upload";
      startProgress;
      TusStart "https://tus.example/files" "clip.webm" "video/webm";
      byteProgress (250, 1000)%Z;
      ConsoleError "TUS upload failed:";
      ConsoleError "TUS upload failed:";
      startProgress;
      PutFetch "https://put.example/asset-1" "video/webm"],
     Throw (mkError "Failed to fetch"))
  /\ tus_succeeded net_offline ticket0 = false
  /\ put_succeeded net_offline = false
  /\ ~ UploadError (mkError "Failed to fetch").
Proof.
  split; [reflexivity|]. split; [reflexivity|]. split; [reflexivity|].
  unfold UploadError. cbn. discriminate.
Qed.

End UploaderFacts.

(** ** The recorder *)

Module RecorderFacts.
Import Js Recorder.

Lemma blob_size_nonneg d : (0 <= blob_size d)%Z.
Proof. unfold blob_size. lia. Qed.

Lemma sizes_app p q : sizes (p ++ q) = (sizes p + sizes q)%Z.
Proof. induction p as [|d p IH]; cbn; [reflexivity|]. rewrite IH. lia. Qed.

(** Empty fragments are dropped, so the kept ones weigh what was emitted. *)
Lemma sizes_kept events : sizes (kept events) = emitted_size events.
Proof.
  induction events as [|[d|] events IH]; cbn; [reflexivity| |exact IH].
  destruct (Z.ltb_spec 0 (blob_size d)); cbn.
  - now rewrite IH.
  - rewrite IH. pose proof (blob_size_nonneg d). lia.
Qed.

(** [new Blob(parts)] is as large as its parts together. *)
Lemma blob_size_new_Blob parts type : blob_size (new_Blob parts type) = sizes parts.
Proof.
  unfold blob_size, new_Blob; cbn [blob_bytes].
  induction parts as [|d parts IH]; cbn; [reflexivity|].
  rewrite length_app, Nat2Z.inj_add, IH. reflexivity.
Qed.

Lemma ondataavailable_spec e this :
  ondataavailable e this =
  {| videoElement := videoElement this; recorder := recorder this;
     chunks := (chunks this ++ kept [e])%list; startTime := startTime this;
     mimeType := mimeType this |}.
Proof.
  destruct this; unfold ondataavailable; cbn.
  destruct e as [d|]; cbn; [destruct (0 <? blob_size d)%Z; cbn|];
    rewrite ?app_nil_r; reflexivity.
Qed.

Lemma kept_app e1 e2 : kept (e1 ++ e2) = (kept e1 ++ kept e2)%list.
Proof.
  induction e1 as [|[d|] e1 IH]; cbn; [reflexivity| |exact IH].
  destruct (0 <? blob_size d)%Z; cbn; now rewrite IH.
Qed.

Lemma deliver_spec events : forall this,
  deliver events this =
  {| videoElement := videoElement this; recorder := recorder this;
     chunks := (chunks this ++ kept events)%list; startTime := startTime this;
     mimeType := mimeType this |}.
Proof.
  unfold deliver.
  induction events as [|e events IH]; intros this; cbn [fold_left].
  - destruct this; cbn. now rewrite app_nil_r.
  - rewrite IH, ondataavailable_spec. cbn [videoElement recorder chunks startTime mimeType].
    change (e :: events) with ([e] ++ events)%list.
    now rewrite kept_app, app_assoc.
Qed.

Lemma candidate_nonempty its m :
  find its mimeCandidates = Some m ->
  truthy (Some m) = true /\ or_str (Some m) "" = m /\ or_str (Some m) "video/webm" = m.
Proof.
  intros H. apply find_some in H as [Hin _].
  repeat (destruct Hin as [<-|Hin]; [repeat split; reflexivity|]).
  destruct Hin.
Qed.

(** [start()] on a new recorder whose element can be captured, in a browser
    that supports one of the candidate encodings. *)
Lemma start_ok its now encs el m :
  has_captureStream el = true ->
  find its mimeCandidates = Some m ->
  start its now encs (new_VideoRecorder el) =
  (Ok tt,
   {| videoElement := el; recorder := Some (length encs); chunks := [];
      startTime := Some now; mimeType := m |},
   set_state (length encs) recording
     (encs ++ [{| mr_mimeType := m; mr_state := inactive |}])%list).
Proof.
  intros Hc Hm. destruct (candidate_nonempty _ Hm) as (Ht & Ho & _).
  unfold start, new_VideoRecorder. cbn [videoElement]. rewrite Hc, Hm.
  cbn [negb]. rewrite Ho, Ht. reflexivity.
Qed.

(** What [record] comes to once [start()] succeeded and [onstop] fired. *)
Lemma record_run fixd el its now events senv m :
  has_captureStream el = true ->
  find its mimeCandidates = Some m ->
  now <> 0%Z ->
  onstop_fired senv = true ->
  let fragments := (events ++ flushed senv)%list in
  let raw := new_Blob (kept fragments) m in
  let d := (now_stop senv - now)%Z in
  record fixd el its now events senv =
  match kept fragments with
  | [] => throw EmptyRecordingError
  | _ :: _ =>
      if (emitted_size fragments <? 1000)%Z
      then throw (UndersizedRecordingError (emitted_size fragments))
      else
        match fixd raw d with
        | Some fixed =>
            ([FixWebmDuration raw d],
             Ok {| blob := fixed; durationMs := d; rr_mimeType := m |})
        | None =>
            ([FixWebmDuration raw d;
              ConsoleError "Failed to fix WebM duration (proceeding anyway):"],
             Ok {| blob := raw; durationMs := d; rr_mimeType := m |})
        end
  end.
Proof.
  intros Hc Hm Hnow Hstop fragments raw d.
  destruct (candidate_nonempty _ Hm) as (_ & _ & Hty).
  unfold record. rewrite (@start_ok its now [] el m Hc Hm).
  unfold stop. rewrite !deliver_spec.
  cbn [recorder startTime chunks mimeType videoElement app].
  unfold truthyZ. destruct (Z.eqb_spec now 0); [contradiction|]. cbn [negb].
  rewrite Hstop. cbn [negb fst]. rewrite <- kept_app. fold fragments.
  rewrite Hty. fold raw. fold d.
  assert (Hsize : blob_size raw = emitted_size fragments)
    by (unfold raw; now rewrite blob_size_new_Blob, sizes_kept).
  destruct (kept fragments) as [|c cs] eqn:Hk; [reflexivity|].
  cbn [length Nat.eqb]. rewrite Hsize.
  destruct (emitted_size fragments <? 1000)%Z; [reflexivity|].
  cbn [fst]. destruct (fixd raw d); reflexivity.
Qed.

Lemma kept_nil_size events : kept events = [] -> emitted_size events = 0%Z.
Proof. intros H. now rewrite <- sizes_kept, H. Qed.

Lemma kept_nil events :
  (forall d, In (Some d) events -> blob_size d = 0%Z) -> kept events = [].
Proof.
  induction events as [|[d|] events IH]; intros H; cbn; [reflexivity| |].
  - rewrite (H d (or_introl eq_refl)). cbn. apply IH. intros d' Hd'. apply H. now right.
  - apply IH. intros d' Hd'. apply H. now right.
Qed.

(** C2: once [start()] succeeded (at a clock reading other than 0, which
    [stop()] would take for a recording not started) and the encoder signals
    its stop, the blob that [stop()] assembles is as large as all emitted
    fragments together;
    when that is at least 1000 bytes, [stop()] resolves with an artifact
    whose duration is the wall-clock time measured from [start()] to the end
    of the stop, after calling the repair on the assembled blob with that
    duration; when the repair succeeds its output is the artifact's blob, so
    that a repair that writes the requested duration leaves it there;
    when fragments were kept but weigh less than 1000 bytes, [stop()] throws
    the recording-too-small error and neither repairs nor returns a blob. *)
Theorem stop_assembles_fragments_and_repairs_duration
    fixd (webm_duration : Blob -> option Z) el its now events senv m :
  (forall input d fixed, fixd input d = Some fixed -> webm_duration fixed = Some d) ->
  has_captureStream el = true ->
  find its mimeCandidates = Some m ->
  now <> 0%Z ->
  onstop_fired senv = true ->
  let fragments := (events ++ flushed senv)%list in
  let raw := new_Blob (kept fragments) m in
  let d := (now_stop senv - now)%Z in
  let run := record fixd el its now events senv in
  blob_size raw = emitted_size fragments
  /\ ((1000 <= emitted_size fragments)%Z ->
      (exists artifact,
         result_of run = Ok artifact /\ durationMs artifact = d
         /\ In (FixWebmDuration raw d) (trace_of run))
      /\ (forall fixed, fixd raw d = Some fixed ->
            run = ([FixWebmDuration raw d],
                   Ok {| blob := fixed; durationMs := d; rr_mimeType := m |})
            /\ webm_duration fixed = Some d))
  /\ (kept fragments <> [] ->
      (emitted_size fragments < 1000)%Z ->
      run = ([], Throw (UndersizedRecordingError (emitted_size fragments)))).
Proof.
  intros Hfix Hc Hm Hnow Hstop fragments raw d run.
  pose proof (@record_run fixd el its now events senv m Hc Hm Hnow Hstop) as Hrun.
  cbv zeta in Hrun. fold fragments in Hrun. fold raw in Hrun. fold d in Hrun.
  fold run in Hrun.
  split; [unfold raw; now rewrite blob_size_new_Blob, sizes_kept|]. split.
  - intros Hbig.
    assert (Hbody : run = match fixd raw d with
                          | Some fixed =>
                              ([FixWebmDuration raw d],
                               Ok {| blob := fixed; durationMs := d; rr_mimeType := m |})
                          | None =>
                              ([FixWebmDuration raw d;
                                ConsoleError
                                  "Failed to fix WebM duration (proceeding anyway):"],
                               Ok {| blob := raw; durationMs := d; rr_mimeType := m |})
                          end).
    { rewrite Hrun. destruct (kept fragments) as [|c cs] eqn:Hk.
      - apply kept_nil_size in Hk. lia.
      - destruct (Z.ltb_spec (emitted_size fragments) 1000); [lia|reflexivity]. }
    split.
    + rewrite Hbody. destruct (fixd raw d) as [fixed|]; eexists;
        (split; [reflexivity|]; split; [reflexivity|]; now left).
    + intros fixed Hfixed. split; [|now apply (Hfix raw d)].
      now rewrite Hbody, Hfixed.
  - intros Hkept Hsmall. rewrite Hrun.
    destruct (kept fragments) as [|c cs]; [contradiction|].
    destruct (Z.ltb_spec (emitted_size fragments) 1000); [reflexivity|lia].
Qed.

(** C6: once [start()] succeeded and the encoder signals its stop, if no
    fragment with data was emitted, [stop()] throws the no-data error; it
    performs nothing else, so no blob is assembled, repaired or returned. *)
Theorem stop_without_fragments_throws_empty_recording
    fixd el its now events senv m :
  has_captureStream el = true ->
  find its mimeCandidates = Some m ->
  now <> 0%Z ->
  onstop_fired senv = true ->
  (forall d, In (Some d) (events ++ flushed senv) -> blob_size d = 0%Z) ->
  record fixd el its now events senv = ([], Throw EmptyRecordingError).
Proof.
  intros Hc Hm Hnow Hstop Hnone.
  rewrite (@record_run fixd el its now events senv m Hc Hm Hnow Hstop).
  cbv zeta. now rewrite (kept_nil _ Hnone).
Qed.

(** C8: when the duration repair throws, [stop()] logs the failure and still
    resolves, with the blob as assembled and the measured duration. *)
Theorem stop_survives_repair_failure fixd el its now events senv m :
  has_captureStream el = true ->
  find its mimeCandidates = Some m ->
  now <> 0%Z ->
  onstop_fired senv = true ->
  let fragments := (events ++ flushed senv)%list in
  let raw := new_Blob (kept fragments) m in
  let d := (now_stop senv - now)%Z in
  (1000 <= emitted_size fragments)%Z ->
  fixd raw d = None ->
  record fixd el its now events senv
  = ([FixWebmDuration raw d;
      ConsoleError "Failed to fix WebM duration (proceeding anyway):"],
     Ok {| blob := raw; durationMs := d; rr_mimeType := m |}).
Proof.
  intros Hc Hm Hnow Hstop fragments raw d Hbig Hfail.
  pose proof (@record_run fixd el its now events senv m Hc Hm Hnow Hstop) as Hrun.
  cbv zeta in Hrun. fold fragments in Hrun. fold raw in Hrun. fold d in Hrun.
  rewrite Hrun. destruct (kept fragments) as [|c cs] eqn:Hk.
  - apply kept_nil_size in Hk. lia.
  - destruct (Z.ltb_spec (emitted_size fragments) 1000); [lia|].
    now rewrite Hfail.
Qed.

(** *** Concrete recordings *)

Lemma stop_assembles_witness :
  blob_size clip0 = 1200%Z
  /\ record repair_5000 video0 webm_only 1000
            [Some (fragment 700); Some (fragment 0)] (stop_at 6000 [Some (fragment 500)])
     = ([FixWebmDuration clip0 5000],
        Ok {| blob := clip0; durationMs := 5000; rr_mimeType := "video/webm" |})
  /\ reads_5000 clip0 = Some 5000%Z.
Proof.
  destruct (@stop_assembles_fragments_and_repairs_duration
              repair_5000 reads_5000 video0 webm_only 1000
              [Some (fragment 700); Some (fragment 0)]
              (stop_at 6000 [Some (fragment 500)]) "video/webm")
    as (Hsize & Hbig & _).
  - intros input d fixed H. unfold repair_5000 in H.
    destruct (Z.eqb_spec d 5000); [subst; reflexivity | discriminate].
  - reflexivity.
  - reflexivity.
  - discriminate.
  - reflexivity.
  - destruct (Hbig ltac:(vm_compute; discriminate)) as [_ Hrepaired].
    destruct (Hrepaired clip0 eq_refl) as [Hrun Hdur].
    split; [vm_compute; reflexivity|]. split; [exact Hrun | exact Hdur].
Defined.

Lemma stop_without_fragments_witness :
  record repair_5000 video0 webm_only 1000 [None; Some (fragment 0)] (stop_at 6000 [])
  = ([], Throw EmptyRecordingError).
Proof.
  apply (@stop_without_fragments_throws_empty_recording
           repair_5000 video0 webm_only 1000 [None; Some (fragment 0)]
           (stop_at 6000 []) "video/webm").
  - reflexivity.
  - reflexivity.
  - discriminate.
  - reflexivity.
  - intros d [H|[H|[]]]; [discriminate|]. injection H as <-. reflexivity.
Defined.

Lemma stop_survives_repair_failure_witness :
  record repair_fails video0 webm_only 1000
         [Some (fragment 700)] (stop_at 6000 [Some (fragment 500)])
  = ([FixWebmDuration clip0 5000;
      ConsoleError "Failed to fix WebM duration (proceeding anyway):"],
     Ok {| blob := clip0; durationMs := 5000; rr_mimeType := "video/webm" |}).
Proof.
  apply (@stop_survives_repair_failure
           repair_fails video0 webm_only 1000
           [Some (fragment 700)] (stop_at 6000 [Some (fragment 500)]) "video/webm").
  - reflexivity.
  - reflexivity.
  - discriminate.
  - reflexivity.
  - vm_compute; discriminate.
  - reflexivity.
Defined.

(** *** Starting twice *)

Lemma startRecording_while_recording env page :
  isRecordingRef (refs page) = true ->
  startRecording env page = ([ConsoleWarn "Recording already in progress"], Ok tt, page).
Proof. unfold startRecording, startRecording_begin. now intros ->. Qed.

Lemma startRecording_mounted env el m :
  match video env with Some v => Some v | None => canvas env end = Some el ->
  has_captureStream el = true ->
  find (isTypeSupported env) mimeCandidates = Some m ->
  startRecording env mounted =
  ([OnProgress "recording" "Recording..."; OnRecordingStart],
   Ok tt,
   {| refs := {| recorderRef :=
                   Some {| videoElement := el; recorder := Some 0%nat; chunks := [];
                           startTime := Some (now_recorder env); mimeType := m |};
                 recordStartTimeRef := Some (now_component env);
                 isRecordingRef := true;
                 isProcessingRef := false |};
      encoders := [{| mr_mimeType := m; mr_state := recording |}] |}).
Proof.
  intros Hel Hc Hm. unfold startRecording, startRecording_begin, mounted.
  cbn [refs isRecordingRef isProcessingRef encoders].
  rewrite Hel. unfold isSupported. rewrite Hc. cbn [negb].
  rewrite (@start_ok (isTypeSupported env) (now_recorder env) [] el m Hc Hm).
  reflexivity.
Qed.

(** C3, as amended: once a first [startRecording()] has settled, having
    started the encoder, and whatever fragments arrived since, a second
    [startRecording()] stops at its first guard, before its [await], and
    changes nothing: the component holds the same recorder with the same
    chunks, the page still has the one encoder, which is recording, and no
    other was created or queued; the second call is refused with the
    console warning 'Recording already in progress' only: its promise
    resolves and the error callback is not invoked. *)
Theorem second_start_leaves_one_active_encoder env1 events env2 el m :
  match video env1 with Some v => Some v | None => canvas env1 end = Some el ->
  has_captureStream el = true ->
  find (isTypeSupported env1) mimeCandidates = Some m ->
  let first := startRecording env1 mounted in
  let page1 := page_deliver events (snd first) in
  let second := startRecording env2 page1 in
  active_encoders (encoders (snd first)) = 1%nat
  /\ startRecording_begin env2 page1
     = ([ConsoleWarn "Recording already in progress"], None, page1)
  /\ snd second = page1
  /\ encoders (snd second) = [{| mr_mimeType := m; mr_state := recording |}]
  /\ active_encoders (encoders (snd second)) = 1%nat
  /\ fst second = ([ConsoleWarn "Recording already in progress"], Ok tt)
  /\ ~ reports_rejection (fst second).
Proof.
  intros Hel Hc Hm first page1 second. subst second page1 first.
  rewrite (@startRecording_mounted env1 el m Hel Hc Hm). cbn [snd].
  rewrite startRecording_while_recording by reflexivity.
  cbn [fst snd]. repeat split; try reflexivity.
  intros [[e He]|[e [He|[]]]]; discriminate.
Qed.

Lemma second_start_witness :
  snd (startRecording env0
         (page_deliver [Some (fragment 700)] (snd (startRecording env0 mounted))))
  = page_deliver [Some (fragment 700)] (snd (startRecording env0 mounted))
  /\ active_encoders
       (encoders (snd (startRecording env0
          (page_deliver [Some (fragment 700)] (snd (startRecording env0 mounted))))))
     = 1%nat
  /\ fst (startRecording env0
            (page_deliver [Some (fragment 700)] (snd (startRecording env0 mounted))))
     = ([ConsoleWarn "Recording already in progress"], Ok tt).
Proof.
  destruct (@second_start_leaves_one_active_encoder
              env0 [Some (fragment 700)] env0 video0 "video/webm"
              eq_refl eq_refl eq_refl)
    as (_ & _ & Hsame & _ & Hone & Hwarn & _).
  split; [exact Hsame|]. split; [exact Hone | exact Hwarn].
Defined.

(** C3, as stated, fails in its last part: the second call of two
    [startRecording()] calls in a row, the first of which has settled and
    started the encoder, reports no rejection; its promise resolves and
    [onError] is not called, the refusal only appears as a console
    warning. *)
Lemma second_start_reports_no_rejection :
  isRecordingRef (refs (snd (startRecording env0 mounted))) = true
  /\ active_encoders (encoders (snd (startRecording env0 mounted))) = 1%nat
  /\ fst (startRecording env0 (snd (startRecording env0 mounted)))
     = ([ConsoleWarn "Recording already in progress"], Ok tt)
  /\ ~ reports_rejection (fst (startRecording env0 (snd (startRecording env0 mounted)))).
Proof.
  split; [reflexivity|]. split; [reflexivity|]. split; [reflexivity|].
  intros [[e He]|[e He]].
  - vm_compute in He. discriminate.
  - vm_compute in He. destruct He as [He|[]]. discriminate.
Qed.

(** *** Starting twice in one tick *)

(** The guard reads [isRecordingRef], which the first call writes only
    after its [await]: a second call made before the first is resumed
    passes the guard and starts an encoder of its own. *)
Lemma set_state_last encs m st :
  set_state (length encs) st (encs ++ [m])%list
  = (encs ++ [{| mr_mimeType := mr_mimeType m; mr_state := st |}])%list.
Proof. induction encs as [|x encs IH]; cbn; [reflexivity | now rewrite IH]. Qed.

Lemma startRecording_begin_mounted env el m :
  match video env with Some v => Some v | None => canvas env end = Some el ->
  has_captureStream el = true ->
  find (isTypeSupported env) mimeCandidates = Some m ->
  forall encs,
  startRecording_begin env {| refs := refs mounted; encoders := encs |}
  = ([],
     Some {| local_recorder :=
               {| videoElement := el; recorder := Some (length encs); chunks := [];
                  startTime := Some (now_recorder env); mimeType := m |};
             start_settled := Ok tt |},
     {| refs := refs mounted;
        encoders := (encs ++ [{| mr_mimeType := m; mr_state := recording |}])%list |}).
Proof.
  intros Hel Hc Hm encs. unfold startRecording_begin, mounted.
  cbn [refs isRecordingRef isProcessingRef encoders].
  rewrite Hel. unfold isSupported. rewrite Hc. cbn [negb].
  rewrite (@start_ok (isTypeSupported env) (now_recorder env) encs el m Hc Hm).
  rewrite set_state_last. reflexivity.
Qed.

(** Two calls in one tick on a freshly mounted component, each finding an
    element it can capture: both encoders are started and stay active, both
    calls announce a recording, and the component keeps the second recorder
    only. *)
Lemma startRecording_twice_mounted env1 env2 el1 m1 el2 m2 :
  match video env1 with Some v => Some v | None => canvas env1 end = Some el1 ->
  has_captureStream el1 = true ->
  find (isTypeSupported env1) mimeCandidates = Some m1 ->
  match video env2 with Some v => Some v | None => canvas env2 end = Some el2 ->
  has_captureStream el2 = true ->
  find (isTypeSupported env2) mimeCandidates = Some m2 ->
  let run := startRecording_twice env1 env2 mounted in
  fst run = [OnProgress "recording" "Recording..."; OnRecordingStart;
             OnProgress "recording" "Recording..."; OnRecordingStart]
  /\ encoders (snd run) = [{| mr_mimeType := m1; mr_state := recording |};
                           {| mr_mimeType := m2; mr_state := recording |}]
  /\ active_encoders (encoders (snd run)) = 2%nat
  /\ recorderRef (refs (snd run))
     = Some {| videoElement := el2; recorder := Some 1%nat; chunks := [];
               startTime := Some (now_recorder env2); mimeType := m2 |}.
Proof.
  intros Hel1 Hc1 Hm1 Hel2 Hc2 Hm2. cbv zeta. unfold startRecording_twice.
  change mounted with {| refs := refs mounted; encoders := [] |}.
  rewrite (@startRecording_begin_mounted env1 el1 m1 Hel1 Hc1 Hm1 []).
  rewrite (@startRecording_begin_mounted env2 el2 m2 Hel2 Hc2 Hm2).
  repeat split; reflexivity.
Qed.

Example starts_in_one_tick_leave_two_active_encoders :
  active_encoders (encoders (snd (startRecording_twice env0 env0 mounted))) = 2%nat
  /\ fst (startRecording_twice env0 env0 mounted)
     = [OnProgress "recording" "Recording..."; OnRecordingStart;
        OnProgress "recording" "Recording..."; OnRecordingStart].
Proof.
  destruct (@startRecording_twice_mounted env0 env0 video0 "video/webm"
              video0 "video/webm" eq_refl eq_refl eq_refl eq_refl eq_refl eq_refl)
    as (Htrace & _ & Hactive & _).
  split; [exact Hactive | exact Htrace].
Qed.

End RecorderFacts.

(** ** The Daydream client *)

Module DaydreamFacts.
Import Js Daydream.
Local Open Scope eff_scope.

Section Retry.
Variables (srv : Backend) (streamId : string) (params : StreamDiffusionParams).
Variables (maxRetries : nat) (delayMs : Z).

Let loop := retryLoop srv streamId params maxRetries delayMs.

Lemma retryLoop_success r a :
  update_prompt_error srv a = None ->
  loop (S r) a = ((wait a delayMs ++ [Invoke "daydream-prompt"])%list, Ok tt).
Proof.
  intros H. unfold loop, wait. cbn [retryLoop]. unfold updateDaydreamPrompts.
  rewrite H. destruct (0 <? a)%nat; reflexivity.
Qed.

Lemma retryLoop_other r a e :
  update_prompt_error srv a = Some e ->
  isNotReadyError e = false ->
  loop (S r) a =
  ((wait a delayMs
    ++ [Invoke "daydream-prompt";
        ConsoleError "Non-retryable error updating stream params:";
        ConsoleWarn "Stream will use default parameters"])%list,
   Ok tt).
Proof.
  intros H Hn. unfold loop, wait. cbn [retryLoop]. unfold updateDaydreamPrompts.
  rewrite H. destruct (0 <? a)%nat; cbn -[isNotReadyError]; rewrite Hn; reflexivity.
Qed.

Lemma retryLoop_not_ready r a e :
  update_prompt_error srv a = Some e ->
  isNotReadyError e = true ->
  loop (S r) a =
  ((wait a delayMs ++ Invoke "daydream-prompt" :: trace_of (loop r (S a)))%list,
   result_of (loop r (S a))).
Proof.
  intros H Hn. unfold loop, wait. cbn [retryLoop]. unfold updateDaydreamPrompts.
  rewrite H.
  destruct (0 <? a)%nat; cbn -[isNotReadyError retryLoop]; rewrite Hn;
    cbn -[retryLoop];
    destruct (retryLoop srv streamId params maxRetries delayMs r (S a)); reflexivity.
Qed.

Lemma attempts_app t1 t2 : attempts (t1 ++ t2) = (attempts t1 + attempts t2)%nat.
Proof. unfold attempts. now rewrite filter_app, length_app. Qed.

Lemma sleeps_app t1 t2 : sleeps (t1 ++ t2) = (sleeps t1 ++ sleeps t2)%list.
Proof. apply flat_map_app. Qed.

Lemma attempts_wait a : attempts (wait a delayMs) = 0%nat.
Proof. unfold wait. destruct (0 <? a)%nat; reflexivity. Qed.

Lemma sleeps_wait a : sleeps (wait a delayMs) = if (0 <? a)%nat then [delayMs] else [].
Proof. unfold wait. destruct (0 <? a)%nat; reflexivity. Qed.

(** The loop always returns; it calls [updateDaydreamPrompts] at most
    [remaining] times, waits [delayMs] before each call but the very first,
    and goes from one call to the next only on a not-ready error. *)
Lemma retryLoop_run : forall remaining a,
  result_of (loop remaining a) = Ok tt
  /\ (attempts (trace_of (loop remaining a)) <= remaining)%nat
  /\ (0 < remaining -> 1 <= attempts (trace_of (loop remaining a)))%nat
  /\ sleeps (trace_of (loop remaining a))
     = repeat delayMs (attempts (trace_of (loop remaining a))
                       - if (0 <? a)%nat then 0 else 1)
  /\ (forall j, (S j < attempts (trace_of (loop remaining a)))%nat ->
        exists e, update_prompt_error srv (a + j) = Some e
                  /\ isNotReadyError e = true).
Proof.
  induction remaining as [|r IH]; intros a.
  - unfold loop. cbn -[show String.append].
    split; [reflexivity|]. split; [lia|]. split; [lia|]. split; [reflexivity|].
    intros j Hj. lia.
  - destruct (update_prompt_error srv a) as [e|] eqn:He;
      [destruct (isNotReadyError e) eqn:Hn|].
    + rewrite (@retryLoop_not_ready r a e He Hn), trace_of_pair, result_of_pair.
      destruct (IH (S a)) as (Hres & Hle & _ & Hsl & Hretry).
      change (0 <? S a)%nat with true in Hsl. rewrite Nat.sub_0_r in Hsl.
      change (Invoke "daydream-prompt" :: ?t)
        with ([Invoke "daydream-prompt"] ++ t)%list.
      rewrite !attempts_app, !sleeps_app, attempts_wait, sleeps_wait, Hsl.
      change (attempts [Invoke "daydream-prompt"]) with 1%nat.
      change (sleeps [Invoke "daydream-prompt"]) with (@nil Z).
      cbn [app Nat.add].
      split; [exact Hres|]. split; [lia|]. split; [lia|]. split.
      * destruct a; [change (0 <? 0)%nat with false | change (0 <? S a)%nat with true];
          cbn [app Nat.sub]; rewrite ?Nat.sub_0_r; reflexivity.
      * intros [|j] Hj.
        -- exists e. rewrite Nat.add_0_r. auto.
        -- destruct (Hretry j ltac:(lia)) as (e' & He' & Hn').
           exists e'. replace (a + S j)%nat with (S a + j)%nat by lia. auto.
    + rewrite (@retryLoop_other r a e He Hn), trace_of_pair, result_of_pair.
      rewrite !attempts_app, !sleeps_app, attempts_wait, sleeps_wait.
      change (attempts [Invoke "daydream-prompt"; _; _]) with 1%nat.
      change (sleeps [Invoke "daydream-prompt"; _; _]) with (@nil Z).
      rewrite app_nil_r. cbn [Nat.add].
      split; [reflexivity|]. split; [lia|]. split; [lia|]. split.
      * destruct a; reflexivity.
      * intros j Hj. lia.
    + rewrite (@retryLoop_success r a He), trace_of_pair, result_of_pair.
      rewrite !attempts_app, !sleeps_app, attempts_wait, sleeps_wait.
      change (attempts [Invoke "daydream-prompt"]) with 1%nat.
      change (sleeps [Invoke "daydream-prompt"]) with (@nil Z).
      rewrite app_nil_r. cbn [Nat.add].
      split; [reflexivity|]. split; [lia|]. split; [lia|]. split.
      * destruct a; reflexivity.
      * intros j Hj. lia.
Qed.

(** Attempt [k] of the loop takes place exactly when the loop still has
    a turn for it and every answer before it was a not-ready error. *)
Lemma retryLoop_attempts : forall remaining a k,
  (k < attempts (trace_of (loop remaining a)))%nat
  <-> (k < remaining)%nat
      /\ forall j, (j < k)%nat -> not_ready_at srv (a + j) = true.
Proof.
  induction remaining as [|r IH]; intros a k.
  - unfold loop. cbn -[show String.append]. split; [lia | intros [H _]; lia].
  - assert (Hone : not_ready_at srv a = false ->
            ((k < 1)%nat <->
             (k < S r)%nat
             /\ forall j, (j < k)%nat -> not_ready_at srv (a + j) = true)).
    { intros Hna. split.
      - intros Hk. split; [lia|]. intros j Hj. lia.
      - intros [_ Hall]. destruct k as [|k]; [lia|].
        specialize (Hall 0%nat ltac:(lia)). rewrite Nat.add_0_r in Hall. congruence. }
    destruct (update_prompt_error srv a) as [e|] eqn:He;
      [destruct (isNotReadyError e) eqn:Hn|].
    + rewrite (@retryLoop_not_ready r a e He Hn), trace_of_pair.
      change (Invoke "daydream-prompt" :: ?t)
        with ([Invoke "daydream-prompt"] ++ t)%list.
      rewrite !attempts_app, attempts_wait.
      change (attempts [Invoke "daydream-prompt"]) with 1%nat. cbn [Nat.add].
      assert (Ha : not_ready_at srv a = true) by (unfold not_ready_at; now rewrite He).
      destruct k as [|k].
      * split; [intros _; split; [lia | intros j Hj; lia] | intros _; lia].
      * rewrite <- Nat.succ_lt_mono, (IH (S a) k). split.
        -- intros [Hk Hall]. split; [lia|]. intros [|j] Hj.
           ++ now rewrite Nat.add_0_r.
           ++ replace (a + S j)%nat with (S a + j)%nat by lia. apply Hall. lia.
        -- intros [Hk Hall]. split; [lia|]. intros j Hj.
           replace (S a + j)%nat with (a + S j)%nat by lia. apply Hall. lia.
    + rewrite (@retryLoop_other r a e He Hn), trace_of_pair.
      rewrite !attempts_app, attempts_wait.
      change (attempts [Invoke "daydream-prompt"; _; _]) with 1%nat. cbn [Nat.add].
      apply Hone. unfold not_ready_at. now rewrite He.
    + rewrite (@retryLoop_success r a He), trace_of_pair.
      rewrite !attempts_app, attempts_wait.
      change (attempts [Invoke "daydream-prompt"]) with 1%nat. cbn [Nat.add].
      apply Hone. unfold not_ready_at. now rewrite He.
Qed.

Lemma wire_app t1 t2 : wire (t1 ++ t2) = (wire t1 ++ wire t2)%list.
Proof. apply filter_app. Qed.

Lemma wire_wait a : wire (wait a delayMs) = wait a delayMs.
Proof. unfold wait. destruct (0 <? a)%nat; reflexivity. Qed.

(** The calls of the loop are [delayMs] apart: a wait stands before every
    call but the very first one. *)
Lemma retryLoop_wire : forall remaining a,
  wire (trace_of (loop remaining a))
  = if (0 <? a)%nat
    then later_calls (attempts (trace_of (loop remaining a))) delayMs
    else spaced_calls (attempts (trace_of (loop remaining a))) delayMs.
Proof.
  induction remaining as [|r IH]; intros a.
  - unfold loop. destruct a; reflexivity.
  - destruct (update_prompt_error srv a) as [e|] eqn:He;
      [destruct (isNotReadyError e) eqn:Hn|].
    + rewrite (@retryLoop_not_ready r a e He Hn), trace_of_pair.
      change (Invoke "daydream-prompt" :: ?t)
        with ([Invoke "daydream-prompt"] ++ t)%list.
      rewrite !wire_app, !attempts_app, wire_wait, attempts_wait, (IH (S a)).
      change (0 <? S a)%nat with true.
      change (attempts [Invoke "daydream-prompt"]) with 1%nat.
      change (wire [Invoke "daydream-prompt"]) with [Invoke "daydream-prompt"].
      cbn [Nat.add]. unfold wait.
      destruct (0 <? a)%nat; reflexivity.
    + rewrite (@retryLoop_other r a e He Hn), trace_of_pair.
      rewrite !wire_app, !attempts_app, wire_wait, attempts_wait.
      change (attempts [Invoke "daydream-prompt"; _; _]) with 1%nat.
      change (wire [Invoke "daydream-prompt"; _; _]) with [Invoke "daydream-prompt"].
      cbn [Nat.add]. unfold wait.
      destruct (0 <? a)%nat; reflexivity.
    + rewrite (@retryLoop_success r a He), trace_of_pair.
      rewrite !wire_app, !attempts_app, wire_wait, attempts_wait.
      change (attempts [Invoke "daydream-prompt"]) with 1%nat.
      change (wire [Invoke "daydream-prompt"]) with [Invoke "daydream-prompt"].
      cbn [Nat.add]. unfold wait.
      destruct (0 <? a)%nat; reflexivity.
Qed.

End Retry.

(** C9: once the stream is created, [createDaydreamStream] resolves with it
    whatever the background update of the initial parameters does.  That
    update, [updateDaydreamPromptsWithRetry] with its defaults, never throws.
    It retries on not-ready errors and on nothing else, up to 10 calls in
    all: call number [k] (from 0) is made exactly when [k < 10] and every
    earlier call was answered with a not-ready error.  So it stops at the
    first success or other error, or after the 10th call, and returns
    normally in each case.  Its calls are 1000 ms apart: on the wire there
    is the first call, then a wait of 1000 ms before each further call. *)
Theorem background_update_never_rejects srv stream initialParams params :
  create_stream_error srv = None ->
  create_stream_data srv = Some stream ->
  let retry := updateDaydreamPromptsWithRetry srv (id stream) params 10 1000 in
  result_of (awaited (createDaydreamStream srv initialParams)) = Ok stream
  /\ detached (createDaydreamStream srv (Some params))
     = Some (backgroundUpdate srv stream params)
  /\ result_of (backgroundUpdate srv stream params) = Ok tt
  /\ result_of retry = Ok tt
  /\ (forall k, (k < attempts (trace_of retry))%nat
                <-> (k < 10)%nat
                    /\ forall j, (j < k)%nat -> not_ready_at srv j = true)
  /\ wire (trace_of retry) = spaced_calls (attempts (trace_of retry)) 1000.
Proof.
  intros He Hd retry.
  destruct (@retryLoop_run srv (id stream) params 10 1000 10 0)
    as (Hres & _).
  pose proof (@retryLoop_attempts srv (id stream) params 10 1000 10 0) as Hatt.
  pose proof (@retryLoop_wire srv (id stream) params 10 1000 10 0) as Hwire.
  fold (updateDaydreamPromptsWithRetry srv (id stream) params 10 1000) in *.
  fold retry in Hres, Hatt, Hwire.
  unfold createDaydreamStream. rewrite He, Hd. cbn [awaited detached option_map].
  split; [reflexivity|]. split; [reflexivity|]. split.
  { unfold backgroundUpdate, default_maxRetries, default_delayMs. fold retry.
    rewrite (run_eta retry), Hres. reflexivity. }
  split; [exact Hres|]. split; [exact Hatt | exact Hwire].
Qed.

(** *** Streams that are not ready *)

(** A stream that is ready at the third call: the update is retried twice. *)
Lemma background_update_witness :
  result_of (awaited (createDaydreamStream srv_ready_at_third
                        (Some {| prompt := "studio ghibli portrait" |})))
  = Ok stream0
  /\ result_of (backgroundUpdate srv_ready_at_third stream0
                  {| prompt := "studio ghibli portrait" |}) = Ok tt
  /\ (2 < attempts (trace_of (updateDaydreamPromptsWithRetry srv_ready_at_third
                                (id stream0) {| prompt := "studio ghibli portrait" |}
                                10 1000)))%nat.
Proof.
  destruct (@background_update_never_rejects srv_ready_at_third stream0
              (Some {| prompt := "studio ghibli portrait" |})
              {| prompt := "studio ghibli portrait" |} eq_refl eq_refl)
    as (Hcreated & _ & Hbackground & _ & Hcalls & _).
  split; [exact Hcreated|]. split; [exact Hbackground|].
  apply Hcalls. split; [lia|].
  intros [|[|j]] Hj; [reflexivity | reflexivity | lia].
Defined.

Example retry_until_ready :
  updateDaydreamPromptsWithRetry srv_ready_at_third "stream-1"
    {| prompt := "studio ghibli portrait" |} 10 1000
  = ([Invoke "daydream-prompt";
      Sleep 1000; Invoke "daydream-prompt";
      Sleep 1000; Invoke "daydream-prompt"],
     Ok tt).
Proof. vm_compute. reflexivity. Qed.

Example retries_used_up :
  attempts (trace_of (updateDaydreamPromptsWithRetry srv_never_ready "stream-1"
                        {| prompt := "studio ghibli portrait" |} 10 1000)) = 10%nat
  /\ result_of (updateDaydreamPromptsWithRetry srv_never_ready "stream-1"
                  {| prompt := "studio ghibli portrait" |} 10 1000) = Ok tt.
Proof. split; vm_compute; reflexivity. Qed.

(** The generic error of a non-2xx answer is not taken for a not-ready one:
    the update is tried once and given up. *)
Example non_2xx_is_not_retried :
  isNotReadyError non_2xx = false
  /\ updateDaydreamPromptsWithRetry srv_non_2xx "stream-1"
       {| prompt := "studio ghibli portrait" |} 10 1000
     = ([Invoke "daydream-prompt";
         ConsoleError "Non-retryable error updating stream params:";
         ConsoleWarn "Stream will use default parameters"],
        Ok tt).
Proof. split; vm_compute; reflexivity. Qed.

End DaydreamFacts.

(** ** More on the uploader *)

Module PollingFacts.
Import Js Uploader Polling UploaderFacts.
Local Open Scope eff_scope.

Lemma answer_goes_on_true net i : answer_goes_on net i = true <-> goes_on net i.
Proof.
  unfold answer_goes_on, goes_on.
  destruct (error (asset_status net i)).
  - split; [discriminate | intros [H _]; discriminate].
  - rewrite negb_true_iff. tauto.
Qed.

Lemma pollLoop_check_failed net ud r k udc ad e :
  error (asset_status net k) = Some e ->
  pollLoop net ud (S r) k udc ad =
  ([Invoke "studio-asset-status"; ConsoleError "Error checking asset status:"],
   Throw (mkError ("Failed to check asset status: "
                   ++ or_str (fe_message e) "Unknown error"))).
Proof. intros He. cbn [pollLoop]. rewrite He. reflexivity. Qed.

Lemma capped_processing a k : capped (OnProgress (processingProgress a k)) = true.
Proof.
  unfold capped, processingProgress. cbn [phase up_progress].
  change ("processing" =? "processing") with true. cbv iota.
  apply Qle_bool_iff, Q.le_min_r.
Qed.

Lemma is_complete_processing a k :
  is_complete (OnProgress (processingProgress a k)) = false.
Proof. reflexivity. Qed.

(** The events of an iteration, whichever way it ends. *)
Lemma last_iteration_events ud a k udc :
  polls (last_iteration ud a k udc) = 1%nat
  /\ forallb poll_event (last_iteration ud a k udc) = true
  /\ forallb one_second (last_iteration ud a k udc) = true
  /\ forallb capped (last_iteration ud a k udc) = true
  /\ count is_sleep (last_iteration ud a k udc) = 0%nat
  /\ count is_complete (last_iteration ud a k udc) = 0%nat
  /\ count is_upload_done (last_iteration ud a k udc)
     = (if negb udc && status_is (status_of a) "processing" then 1 else 0)%nat.
Proof.
  unfold last_iteration, count, polls.
  destruct (negb udc && status_is (status_of a) "processing");
    cbn [app filter forallb is_poll poll_event one_second is_sleep is_upload_done
         length andb String.eqb Ascii.eqb Bool.eqb];
    rewrite capped_processing, is_complete_processing; repeat split.
Qed.

Lemma iteration_events ud a k udc :
  polls (iteration ud a k udc) = 1%nat
  /\ forallb poll_event (iteration ud a k udc) = true
  /\ forallb one_second (iteration ud a k udc) = true
  /\ forallb capped (iteration ud a k udc) = true
  /\ count is_sleep (iteration ud a k udc) = 1%nat
  /\ count is_complete (iteration ud a k udc) = 0%nat
  /\ count is_upload_done (iteration ud a k udc)
     = (if negb udc && status_is (status_of a) "processing" then 1 else 0)%nat.
Proof.
  unfold iteration, count, polls.
  destruct (negb udc && status_is (status_of a) "processing");
    cbn [app filter forallb is_poll poll_event one_second is_sleep is_upload_done
         length andb String.eqb Ascii.eqb Bool.eqb Z.eqb Pos.eqb];
    rewrite capped_processing, is_complete_processing; repeat split.
Qed.

(** How an iteration that does not go on ends. *)
Lemma pollLoop_stops net ud r k udc ad :
  answer_goes_on net k = false ->
  exists t,
    pollLoop net ud (S r) k udc ad = (t, poll_outcome net (Some k) ad)
    /\ polls t = 1%nat
    /\ forallb poll_event t = true
    /\ forallb one_second t = true
    /\ forallb capped t = true
    /\ count is_sleep t = 0%nat
    /\ count is_complete t = 0%nat
    /\ count is_upload_done t
       = (if negb udc && processing_at net k then 1 else 0)%nat.
Proof.
  intros Hstop. unfold answer_goes_on in Hstop. unfold poll_outcome, processing_at.
  destruct (error (asset_status net k)) as [e|] eqn:He.
  - rewrite (@pollLoop_check_failed net ud r k udc ad e He).
    eexists; split; [reflexivity|]. rewrite andb_false_r. repeat split.
  - apply negb_false_iff in Hstop. cbv zeta.
    destruct (last_iteration_events ud (data (asset_status net k)) k udc)
      as (H1 & H2 & H3 & H4 & H5 & H6 & H7).
    destruct (status_is (status_of (data (asset_status net k))) "ready") eqn:Hr.
    + rewrite (@pollLoop_ready net ud r k udc ad He Hr).
      eexists; split; [reflexivity|]. repeat split; assumption.
    + unfold terminal in Hstop. rewrite Hr in Hstop. cbn [orb] in Hstop.
      rewrite (@pollLoop_failed net ud r k udc ad He Hr Hstop).
      eexists; split; [reflexivity|].
      unfold count in *. rewrite polls_app, !forallb_app, !filter_app, !length_app.
      rewrite H1, H2, H3, H4, H5, H6, H7. cbn. repeat split; try reflexivity.
      all: now rewrite Nat.add_0_r.
Qed.

Lemma first_stop_bounds net r : forall k j,
  first_stop net r k = Some j -> (k <= j < k + r)%nat.
Proof.
  induction r as [|r IH]; intros k j H; cbn in H; [discriminate|].
  destruct (answer_goes_on net k).
  - apply IH in H. lia.
  - injection H as <-. lia.
Qed.

Lemma first_stop_prefix net r : forall k j,
  first_stop net r k = Some j ->
  (forall i, (k <= i < j)%nat -> goes_on net i) /\ answer_goes_on net j = false.
Proof.
  induction r as [|r IH]; intros k j H; cbn in H; [discriminate|].
  destruct (answer_goes_on net k) eqn:Hk.
  - destruct (IH _ _ H) as [Hpre Hj]. split; [|exact Hj].
    intros i Hi. destruct (Nat.eq_dec i k) as [->|Hne].
    + now apply answer_goes_on_true.
    + apply Hpre. lia.
  - injection H as <-. split; [intros i Hi; lia | exact Hk].
Qed.

Lemma first_stop_none net r : forall k,
  first_stop net r k = None -> forall i, (k <= i < k + r)%nat -> goes_on net i.
Proof.
  induction r as [|r IH]; intros k H i Hi; [lia|]. cbn in H.
  destruct (answer_goes_on net k) eqn:Hk; [|discriminate].
  destruct (Nat.eq_dec i k) as [->|Hne].
  - now apply answer_goes_on_true.
  - apply (IH (S k) H). lia.
Qed.

Lemma poll_outcome_some net j ad ad' :
  poll_outcome net (Some j) ad = poll_outcome net (Some j) ad'.
Proof. reflexivity. Qed.

(** The loop, read off the answers: its result, the number of its status
    requests and waits, and its calls of [onUploadDone]. *)
Lemma pollLoop_spec net ud r : forall k udc ad,
  exists t,
    pollLoop net ud r k udc ad
    = (t, poll_outcome net (first_stop net r k) (last_answer net r k ad))
    /\ polls t = match first_stop net r k with Some j => S (j - k) | None => r end
    /\ forallb poll_event t = true
    /\ forallb one_second t = true
    /\ forallb capped t = true
    /\ count is_sleep t = match first_stop net r k with Some j => (j - k)%nat | None => r end
    /\ count is_complete t = 0%nat
    /\ count is_upload_done t
       = (if negb udc && existsb (processing_at net) (seq k (polls t)) then 1 else 0)%nat.
Proof.
  induction r as [|r IH]; intros k udc ad.
  - exists []. cbn. rewrite andb_false_r. repeat split.
  - cbn [first_stop]. destruct (answer_goes_on net k) eqn:Hk.
    + pose proof (proj1 (answer_goes_on_true net k) Hk) as [He Ht].
      rewrite (@pollLoop_continue net ud r k udc ad He Ht). cbv zeta.
      set (a := data (asset_status net k)).
      set (udc' := udc || negb udc && status_is (status_of a) "processing").
      destruct (IH (S k) udc' a) as (t & Hrun & Hp & Hpe & Hs1 & Hcap & Hsl & Hco & Hud).
      destruct (iteration_events ud a k udc) as (I1 & I2 & I3 & I4 & I5 & I6 & I7).
      exists (iteration ud a k udc ++ t)%list.
      rewrite Hrun, trace_of_pair, result_of_pair.
      assert (Hproc : processing_at net k = status_is (status_of a) "processing")
        by (unfold processing_at; now rewrite He).
      split.
      { f_equal. destruct (first_stop net r (S k)) as [j|] eqn:Hfs; [reflexivity|].
        cbn [poll_outcome]. f_equal. unfold last_answer. subst a.
        destruct r as [|r']; [now rewrite Nat.add_0_r|].
        f_equal. f_equal. lia. }
      unfold count in *.
      rewrite polls_app, !forallb_app, !filter_app, !length_app.
      rewrite I1, I2, I3, I4, I5, I6, I7, Hpe, Hs1, Hcap, Hsl, Hco, Hud.
      assert (Hb : forall j, first_stop net r (S k) = Some j -> (S k <= j)%nat)
        by (intros j Hj; apply first_stop_bounds in Hj; lia).
      split; [rewrite Hp; destruct (first_stop net r (S k)) as [j|];
              [specialize (Hb j eq_refl)|]; lia|].
      split; [reflexivity|]. split; [reflexivity|]. split; [reflexivity|].
      split; [destruct (first_stop net r (S k)) as [j|]; [specialize (Hb j eq_refl)|]; lia|].
      split; [reflexivity|].
      cbn [Nat.add seq existsb]. rewrite Hproc. subst udc'.
      destruct udc, (status_is (status_of a) "processing"),
        (existsb (processing_at net) (seq (S k) (polls t))); reflexivity.
    + destruct (@pollLoop_stops net ud r k udc ad Hk)
        as (t & Hrun & Hp & Hpe & Hs1 & Hcap & Hsl & Hco & Hud).
      exists t. rewrite Hrun, Hp, Hsl, Hco, Hud, Nat.sub_diag.
      split; [reflexivity|]. repeat split; try assumption.
      cbn [seq existsb]. now rewrite orb_false_r.
Qed.

Lemma last_answer_not_ready net r : forall k ad,
  first_stop net r k = None ->
  status_is (status_of ad) "ready" = false ->
  status_is (status_of (last_answer net r k ad)) "ready" = false.
Proof.
  intros k ad Hnone Had. destruct r as [|r]; [exact Had|]. cbn [last_answer].
  destruct (@first_stop_none net (S r) k Hnone (k + r)%nat ltac:(lia)) as [_ Ht].
  now apply terminal_false in Ht.
Qed.

Lemma finish_events ud ad :
  polls (trace_of (finish ud ad)) = 0%nat
  /\ forallb poll_event (trace_of (finish ud ad)) = true
  /\ forallb one_second (trace_of (finish ud ad)) = true
  /\ forallb capped (trace_of (finish ud ad)) = true
  /\ count is_sleep (trace_of (finish ud ad)) = 0%nat
  /\ count is_upload_done (trace_of (finish ud ad)) = 0%nat
  /\ count is_complete (trace_of (finish ud ad)) = resolved (result_of (finish ud ad)).
Proof.
  unfold finish. destruct (negb _); [repeat split|].
  destruct ad as [a|]; [|repeat split].
  destruct (truthy (playbackId a)); repeat split.
Qed.

(** The polling stage, whatever the answers. *)
Lemma poll_anatomy net ud :
  forallb poll_event (trace_of (poll net ud)) = true
  /\ forallb one_second (trace_of (poll net ud)) = true
  /\ forallb capped (trace_of (poll net ud)) = true
  /\ (polls (trace_of (poll net ud)) <= maxAttempts)%nat
  /\ (count is_sleep (trace_of (poll net ud)) <= polls (trace_of (poll net ud)))%nat
  /\ count is_upload_done (trace_of (poll net ud))
     = (if existsb (processing_at net) (seq 0 (polls (trace_of (poll net ud))))
        then 1 else 0)%nat
  /\ count is_complete (trace_of (poll net ud)) = resolved (result_of (poll net ud)).
Proof.
  unfold poll.
  destruct (pollLoop_spec net ud maxAttempts 0 false None)
    as (t & Hrun & Hp & Hpe & Hs1 & Hcap & Hsl & Hco & Hud).
  cbn [negb andb] in Hud.
  assert (Hle : (polls t <= maxAttempts)%nat /\ (count is_sleep t <= polls t)%nat).
  { rewrite Hp, Hsl. destruct (first_stop net maxAttempts 0) as [j|] eqn:Hfs; [|lia].
    apply first_stop_bounds in Hfs. lia. }
  destruct (poll_outcome net (first_stop net maxAttempts 0)
              (last_answer net maxAttempts 0 None)) as [ad'|e] eqn:Hout.
  - assert (Hok : result_of (pollLoop net ud maxAttempts 0 false None) = Ok ad')
      by now rewrite Hrun.
    rewrite (trace_bind_ok _ _ Hok), (result_bind_ok _ _ Hok), Hrun, trace_of_pair.
    destruct (finish_events ud ad') as (F1 & F2 & F3 & F4 & F5 & F6 & F7).
    unfold count in *. rewrite polls_app, !forallb_app, !filter_app, !length_app.
    rewrite F1, F2, F3, F4, F5, F6, F7, Hpe, Hs1, Hcap, Hco, Hud, !Nat.add_0_r.
    repeat split; try reflexivity; lia.
  - assert (Hfail : result_of (pollLoop net ud maxAttempts 0 false None) = Throw e)
      by now rewrite Hrun.
    rewrite (trace_bind_fail _ _ Hfail), (result_bind_fail _ _ Hfail), Hrun, trace_of_pair.
    unfold count in *. rewrite Hpe, Hs1, Hcap, Hco, Hud.
    repeat split; try reflexivity; lia.
Qed.

Lemma uploading_events net ud b filename :
  forallb uploading_event (upload_trace net ud b filename) = true.
Proof.
  unfold upload_trace. rewrite forallb_app. apply andb_true_iff. split.
  - destruct (truthy (tusEndpoint ud)); [|reflexivity]. cbn.
    rewrite forallb_app. apply andb_true_iff. split.
    + apply forallb_forall. intros x Hx. apply in_map_iff in Hx as (r & <- & _).
      reflexivity.
    + destruct (tus_error (tus net)); reflexivity.
  - destruct (put_attempted net ud); [|reflexivity].
    destruct (put net) as [putResponse|e]; [|reflexivity].
    destruct (put_ok putResponse); reflexivity.
Qed.

Lemma early_request net : forallb early_event (trace_of (requestUpload net)) = true.
Proof.
  apply forallb_forall. intros ev Hev. unfold early_event.
  pose proof (request_events net) as H. rewrite forallb_forall in H.
  now rewrite (H ev Hev).
Qed.

Lemma early_upload net ud b filename :
  forallb early_event (trace_of (upload net ud b filename)) = true.
Proof.
  rewrite upload_run, trace_of_pair.
  apply forallb_forall. intros ev Hev. unfold early_event.
  pose proof (uploading_events net ud b filename) as H. rewrite forallb_forall in H.
  rewrite (H ev Hev). apply orb_true_r.
Qed.

(** What an event of the early steps is not. *)
Lemma early_event_is ev :
  early_event ev = true ->
  is_poll ev = false /\ is_upload_done ev = false /\ is_sleep ev = false
  /\ is_complete ev = false /\ capped ev = true /\ one_second ev = true.
Proof.
  unfold early_event. intros H. apply orb_true_iff in H as [H|H].
  - destruct ev as [fn|p| | | | |]; cbn in H; try discriminate; cbn; repeat split.
    apply String.eqb_eq in H. now subst.
  - destruct ev as [fn|p| | | | |]; cbn in H; try discriminate; cbn; repeat split.
    all: apply String.eqb_eq in H; now rewrite H.
Qed.

Lemma early_counts pre :
  forallb early_event pre = true ->
  polls pre = 0%nat /\ count is_upload_done pre = 0%nat /\ count is_sleep pre = 0%nat
  /\ count is_complete pre = 0%nat /\ forallb capped pre = true
  /\ forallb one_second pre = true.
Proof.
  intros H. unfold polls, count.
  rewrite !(@filter_none _ _ early_event pre H) by (intros x Hx; now apply early_event_is).
  repeat split; apply forallb_forall; intros x Hx; rewrite forallb_forall in H;
    now apply early_event_is, H.
Qed.

(** The upload as a whole: the early steps, then, when they succeeded, the
    polling stage. *)
Lemma uploadToLivepeer_anatomy net b filename :
  exists pre post,
    trace_of (uploadToLivepeer net b filename) = (pre ++ post)%list
    /\ forallb early_event pre = true
    /\ ((post = [] /\ exists e, result_of (uploadToLivepeer net b filename) = Throw e)
        \/ (exists ud, delivered net b filename ud
                       /\ post = trace_of (poll net ud)
                       /\ result_of (uploadToLivepeer net b filename)
                          = result_of (poll net ud))).
Proof.
  destruct (result_of (requestUpload net)) as [ud|e] eqn:Hr.
  - destruct (result_of (upload net ud b filename)) as [[]|e] eqn:Hu.
    + exists (trace_of (requestUpload net) ++ trace_of (upload net ud b filename))%list,
             (trace_of (poll net ud)).
      rewrite (@uploadToLivepeer_delivered net b filename ud (conj Hr Hu)).
      rewrite trace_of_pair, result_of_pair, app_assoc, forallb_app,
        early_request, early_upload.
      split; [reflexivity|]. split; [reflexivity|]. right. exists ud.
      split; [split; assumption|]. split; reflexivity.
    + exists (trace_of (requestUpload net) ++ trace_of (upload net ud b filename))%list, [].
      unfold uploadToLivepeer.
      rewrite (trace_bind_ok _ _ Hr), (result_bind_ok _ _ Hr).
      rewrite (trace_bind_fail _ _ Hu), (result_bind_fail _ _ Hu).
      rewrite app_nil_r, forallb_app, early_request, early_upload.
      split; [reflexivity|]. split; [reflexivity|]. left. split; [reflexivity|].
      now exists e.
  - exists (trace_of (requestUpload net)), []. unfold uploadToLivepeer.
    rewrite (trace_bind_fail _ _ Hr), (result_bind_fail _ _ Hr), app_nil_r, early_request.
    split; [reflexivity|]. split; [reflexivity|]. left. split; [reflexivity|].
    now exists e.
Qed.

Lemma poll_event_is ev :
  poll_event ev = true ->
  is_tus_start ev = false /\ is_put ev = false /\ is_ticket_request ev = false.
Proof.
  destruct ev as [fn| | | | | |]; cbn; intros H; try discriminate; repeat split.
  apply String.eqb_eq in H. now subst.
Qed.

Lemma poll_counts post :
  forallb poll_event post = true ->
  count is_tus_start post = 0%nat /\ count is_put post = 0%nat
  /\ count is_ticket_request post = 0%nat.
Proof.
  intros H. unfold count.
  rewrite !(@filter_none _ _ poll_event post H) by (intros x Hx; now apply poll_event_is).
  repeat split.
Qed.

(** X1: [onUploadDone] is called at most once in any upload, and it is
    called exactly when one of the status answers that were read said
    'processing'. *)
Theorem upload_done_at_most_once net b filename :
  let t := trace_of (uploadToLivepeer net b filename) in
  (count is_upload_done t <= 1)%nat
  /\ (count is_upload_done t = 1%nat
      <-> exists i, (i < polls t)%nat
                    /\ error (asset_status net i) = None
                    /\ status_of (data (asset_status net i)) = Some "processing").
Proof.
  cbv zeta.
  assert (Hproc : forall i, processing_at net i = true
            <-> error (asset_status net i) = None
                /\ status_of (data (asset_status net i)) = Some "processing").
  { intros i. unfold processing_at.
    destruct (error (asset_status net i)); [split; [discriminate|intros [H _]; discriminate]|].
    destruct (status_of (data (asset_status net i))) as [s|]; cbn.
    - rewrite String.eqb_eq. split; [intros ->; auto | intros [_ H]; now injection H].
    - split; [discriminate | intros [_ H]; discriminate]. }
  assert (Hex : forall n, existsb (processing_at net) (seq 0 n) = true
            <-> exists i, (i < n)%nat
                          /\ error (asset_status net i) = None
                          /\ status_of (data (asset_status net i)) = Some "processing").
  { intros n. rewrite existsb_exists. split.
    - intros (i & Hi & Hp). exists i. apply in_seq in Hi. apply Hproc in Hp.
      split; [lia | exact Hp].
    - intros (i & Hi & Hp). exists i. split; [apply in_seq; lia | now apply Hproc]. }
  destruct (uploadToLivepeer_anatomy net b filename) as (pre & post & Ht & Hpre & Hpost).
  rewrite Ht. destruct (early_counts _ Hpre) as (P1 & P2 & _).
  rewrite count_app, polls_app, P1, P2. cbn [Nat.add].
  destruct Hpost as [[-> _]|(ud & _ & -> & _)].
  - cbn. split; [lia|]. split; [discriminate | intros (i & Hi & _); lia].
  - destruct (poll_anatomy net ud) as (_ & _ & _ & _ & _ & Hud & _).
    rewrite Hud. rewrite <- Hex.
    destruct (existsb (processing_at net) (seq 0 (polls (trace_of (poll net ud)))));
      split; try lia; split; auto; discriminate.
Qed.

(** X2: an upload makes at most 300 status requests, whatever the answers;
    it waits at most once per status request, and every wait is 1000 ms. *)
Theorem at_most_300_status_requests net b filename :
  let t := trace_of (uploadToLivepeer net b filename) in
  (polls t <= 300)%nat
  /\ (count is_sleep t <= polls t)%nat
  /\ forallb one_second t = true.
Proof.
  cbv zeta. rewrite <- maxAttempts_300.
  destruct (uploadToLivepeer_anatomy net b filename) as (pre & post & Ht & Hpre & Hpost).
  rewrite Ht. destruct (early_counts _ Hpre) as (P1 & _ & P3 & _ & _ & P6).
  rewrite count_app, polls_app, forallb_app, P1, P3, P6. cbn [Nat.add andb].
  destruct Hpost as [[-> _]|(ud & _ & -> & _)].
  - cbn. repeat split; lia.
  - destruct (poll_anatomy net ud) as (_ & H1 & _ & Hle & Hsl & _).
    repeat split; assumption.
Qed.

(** X3: in any upload, every TUS start and PUT write comes before the first
    status request, and the ticket is requested exactly once: the uploader
    never goes back to uploading once it polls. *)
Theorem uploads_precede_polls net b filename :
  let t := trace_of (uploadToLivepeer net b filename) in
  count is_ticket_request t = 1%nat
  /\ exists pre post,
       t = (pre ++ post)%list
       /\ polls pre = 0%nat
       /\ count is_tus_start post = 0%nat
       /\ count is_put post = 0%nat.
Proof.
  cbv zeta.
  assert (Hone : forall (k : UploadData -> Eff UploadResult),
            (forall ud, count is_ticket_request (trace_of (k ud)) = 0%nat) ->
            count is_ticket_request (trace_of (bind (requestUpload net) k)) = 1%nat).
  { intros k Hk. unfold requestUpload.
    destruct (error (request_upload net)); [reflexivity|].
    destruct (data (request_upload net)) as [ud|]; [|reflexivity].
    destruct (truthy (assetId ud)); [|reflexivity].
    change (bind (emit (Invoke "studio-request-upload")) (fun _ => ret ud))
      with (([Invoke "studio-request-upload"], Ok ud) : Eff UploadData).
    rewrite bind_pair_ok, trace_of_pair, count_app. rewrite Hk. reflexivity. }
  split.
  - unfold uploadToLivepeer. apply Hone. intros ud.
    assert (Hupl : count is_ticket_request (trace_of (upload net ud b filename)) = 0%nat).
    { rewrite upload_run, trace_of_pair. unfold count.
      rewrite (@filter_none _ _ uploading_event _ (uploading_events net ud b filename));
        [reflexivity|].
      intros x Hx. destruct x; try reflexivity. discriminate. }
    destruct (result_of (upload net ud b filename)) as [[]|e] eqn:Hu.
    + rewrite (trace_bind_ok _ _ Hu), count_app.
      destruct (poll_anatomy net ud) as (Hpe & _).
      destruct (poll_counts _ Hpe) as (_ & _ & ->).
      rewrite Nat.add_0_r. apply Hupl.
    + rewrite (trace_bind_fail _ _ Hu). apply Hupl.
  - destruct (uploadToLivepeer_anatomy net b filename) as (pre & post & Ht & Hpre & Hpost).
    exists pre, post. destruct (early_counts _ Hpre) as (P1 & _).
    split; [exact Ht|]. split; [exact P1|].
    destruct Hpost as [[-> _]|(ud & _ & -> & _)]; [split; reflexivity|].
    destruct (poll_anatomy net ud) as (Hpe & _).
    destruct (poll_counts _ Hpe) as (H1 & H2 & _). split; assumption.
Qed.

Lemma processing_progress_capped_aux net b filename :
  count is_complete (trace_of (uploadToLivepeer net b filename))
  = resolved (result_of (uploadToLivepeer net b filename)).
Proof.
  destruct (uploadToLivepeer_anatomy net b filename) as (pre & post & Ht & Hpre & Hpost).
  rewrite Ht. destruct (early_counts _ Hpre) as (_ & _ & _ & P4 & _).
  rewrite count_app, P4. cbn [Nat.add].
  destruct Hpost as [[-> [e ->]]|(ud & _ & -> & ->)]; [reflexivity|].
  now destruct (poll_anatomy net ud) as (_ & _ & _ & _ & _ & _ & Hco).
Qed.

(** X4: every progress value reported during processing is at most 99, and
    the 'complete' report is made exactly when the upload resolves. *)
Theorem processing_progress_capped net b filename :
  let run := uploadToLivepeer net b filename in
  forallb capped (trace_of run) = true
  /\ count is_complete (trace_of run) = resolved (result_of run).
Proof.
  cbv zeta.
  destruct (uploadToLivepeer_anatomy net b filename) as (pre & post & Ht & Hpre & Hpost).
  rewrite Ht. destruct (early_counts _ Hpre) as (_ & _ & _ & P4 & P5 & _).
  rewrite count_app, forallb_app, P4, P5. cbn [Nat.add andb].
  destruct Hpost as [[-> [e ->]]|(ud & _ & -> & ->)]; [split; reflexivity|].
  destruct (poll_anatomy net ud) as (_ & _ & Hcap & _ & _ & _ & Hco).
  split; assumption.
Qed.

Lemma first_stop_at net r : forall k j,
  (k <= j < k + r)%nat ->
  (forall i, (k <= i < j)%nat -> goes_on net i) ->
  answer_goes_on net j = false ->
  first_stop net r k = Some j.
Proof.
  induction r as [|r IH]; intros k j Hj Hpre Hstop; [lia|]. cbn.
  destruct (Nat.eq_dec j k) as [->|Hne].
  - now rewrite Hstop.
  - rewrite (proj2 (answer_goes_on_true net k) (Hpre k ltac:(lia))).
    apply IH; [lia| |exact Hstop]. intros i Hi. apply Hpre. lia.
Qed.

(** The polling stage when attempt [j] is the first whose answer stops the
    loop. *)
Lemma poll_stopped_at net ud j :
  (j < maxAttempts)%nat ->
  (forall i, (i < j)%nat -> goes_on net i) ->
  answer_goes_on net j = false ->
  exists t,
    pollLoop net ud maxAttempts 0 false None = (t, poll_outcome net (Some j) None)
    /\ polls t = S j
    /\ count is_complete t = 0%nat.
Proof.
  intros Hj Hpre Hstop.
  destruct (pollLoop_spec net ud maxAttempts 0 false None)
    as (t & Hrun & Hp & _ & _ & _ & _ & Hco & _).
  assert (Hfs : first_stop net maxAttempts 0 = Some j)
    by (apply first_stop_at; [lia|intros i Hi; apply Hpre; lia|exact Hstop]).
  rewrite Hfs in Hrun, Hp.
  exists t. rewrite Hrun, Hp, Nat.sub_0_r. auto.
Qed.

Lemma status_is_eq s lit : status_is s lit = true <-> s = Some lit.
Proof.
  destruct s as [x|]; cbn; [|split; discriminate].
  rewrite String.eqb_eq. split; [intros ->; reflexivity | intros H; now injection H].
Qed.

Lemma reply_eta A (r : Reply A) : r = {| data := data r; error := error r |}.
Proof. now destruct r. Qed.

(** The polling stage from the run of its loop. *)
Lemma poll_loop_ok net ud t ad :
  pollLoop net ud maxAttempts 0 false None = (t, Ok ad) ->
  poll net ud = ((t ++ trace_of (finish ud ad))%list, result_of (finish ud ad)).
Proof. unfold poll. intros ->. apply bind_pair_ok. Qed.

Lemma poll_loop_throw net ud t e :
  pollLoop net ud maxAttempts 0 false None = (t, Throw e) ->
  poll net ud = (t, Throw e).
Proof. unfold poll. intros ->. reflexivity. Qed.

Lemma finish_ok ud ad r :
  result_of (finish ud ad) = Ok r ->
  exists a, ad = Some a /\ status a = Some "ready"
            /\ playbackId a = Some (ur_playbackId r) /\ ur_playbackId r <> ""
            /\ ur_assetId r = assetId ud /\ ur_downloadUrl r = downloadUrl a
            /\ ur_rawUploadedFileUrl r = rawUploadedFileUrl ud.
Proof.
  unfold finish.
  destruct (status_is (status_of ad) "ready") eqn:Hr; cbn [negb]; [|discriminate].
  destruct ad as [a|]; [|discriminate].
  destruct (playbackId a) as [p|] eqn:Hp; cbn [truthy]; [|discriminate].
  destruct (String.eqb_spec p ""); cbn [negb]; [discriminate|].
  rewrite bind_emit. cbn. intros H. injection H as <-. cbn.
  exists a. apply status_is_eq in Hr. cbn in Hr.
  destruct (String.eqb_spec p ""); [contradiction|]. repeat split; auto.
Qed.

(** X5: an upload resolves only if the server said so: some status request
    among the 300 was answered 'ready' with a playback id, every answer
    before it let the loop go on, the result carries that playback id and
    the ticket's asset id, and that status request is the last one. *)
Theorem resolves_only_on_ready net b filename r :
  result_of (uploadToLivepeer net b filename) = Ok r ->
  exists ud k a,
    delivered net b filename ud
    /\ (k < 300)%nat
    /\ (forall i, (i < k)%nat -> goes_on net i)
    /\ asset_status net k = {| data := Some a; error := None |}
    /\ status a = Some "ready"
    /\ playbackId a = Some (ur_playbackId r)
    /\ ur_playbackId r <> ""
    /\ ur_assetId r = assetId ud
    /\ polls (trace_of (uploadToLivepeer net b filename)) = S k.
Proof.
  rewrite <- maxAttempts_300. intros Hok.
  destruct (uploadToLivepeer_anatomy net b filename) as (pre & post & Ht & Hpre & Hpost).
  destruct Hpost as [[_ [e He]]|(ud & Hd & -> & Hres)]; [congruence|].
  rewrite Hres in Hok. exists ud.
  rewrite (uploadToLivepeer_polls Hd).
  destruct (pollLoop_spec net ud maxAttempts 0 false None)
    as (t & Hrun & Hp & _).
  destruct (poll_outcome net (first_stop net maxAttempts 0)
              (last_answer net maxAttempts 0 None)) as [ad'|e] eqn:Hout.
  - rewrite (@poll_loop_ok net ud t ad' Hrun), result_of_pair in Hok.
    rewrite (@poll_loop_ok net ud t ad' Hrun), trace_of_pair, polls_app, polls_finish.
    destruct (@finish_ok ud ad' r Hok) as (a & -> & Hst & Hpid & Hne & Hid & _).
    destruct (first_stop net maxAttempts 0) as [j|] eqn:Hfs.
    + destruct (@first_stop_bounds net maxAttempts 0 j Hfs) as [_ Hj].
      destruct (@first_stop_prefix net maxAttempts 0 j Hfs) as [Hgo _].
      unfold poll_outcome in Hout.
      destruct (error (asset_status net j)) eqn:Hej; [discriminate|]. cbv zeta in Hout.
      destruct (status_is (status_of (data (asset_status net j))) "ready");
        [|discriminate].
      injection Hout as Hdata.
      exists j, a. rewrite Hp, Nat.sub_0_r, Nat.add_0_r.
      split; [exact Hd|]. split; [lia|]. split; [intros i Hi; apply Hgo; lia|].
      split; [rewrite (reply_eta (asset_status net j)), Hej, Hdata; reflexivity|].
      auto.
    + assert (Hlast : last_answer net maxAttempts 0 None = Some a)
        by (unfold poll_outcome in Hout; congruence).
      pose proof (@last_answer_not_ready net maxAttempts 0 None Hfs eq_refl) as Hnr.
      rewrite Hlast in Hnr. cbn [status_of] in Hnr.
      apply (proj2 (status_is_eq _ _)) in Hst. congruence.
  - rewrite (@poll_loop_throw net ud t e Hrun), result_of_pair in Hok. discriminate.
Qed.

Lemma resolves_only_on_ready_witness :
  exists ud k a,
    delivered net_script4 blob0 "clip.webm" ud
    /\ (k < 300)%nat
    /\ (forall i, (i < k)%nat -> goes_on net_script4 i)
    /\ asset_status net_script4 k = {| data := Some a; error := None |}
    /\ status a = Some "ready"
    /\ playbackId a = Some "pb-final"
    /\ "pb-final" <> ""
    /\ Some "asset-1" = assetId ud
    /\ polls (trace_of (uploadToLivepeer net_script4 blob0 "clip.webm")) = S k.
Proof.
  apply (@resolves_only_on_ready net_script4 blob0 "clip.webm"
           {| ur_assetId := Some "asset-1"; ur_playbackId := "pb-final";
              ur_downloadUrl := None; ur_rawUploadedFileUrl := None |}).
  vm_compute. reflexivity.
Defined.

(** The whole upload when the early steps succeeded and attempt [j] is the
    first whose answer stops the loop with an error. *)
Lemma upload_stopped_with net b filename ud j e :
  delivered net b filename ud ->
  (j < maxAttempts)%nat ->
  (forall i, (i < j)%nat -> goes_on net i) ->
  answer_goes_on net j = false ->
  poll_outcome net (Some j) None = Throw e ->
  result_of (uploadToLivepeer net b filename) = Throw e
  /\ polls (trace_of (uploadToLivepeer net b filename)) = S j.
Proof.
  intros Hd Hj Hpre Hstop Hout.
  destruct (@poll_stopped_at net ud j Hj Hpre Hstop) as (t & Hrun & Hp & _).
  rewrite Hout in Hrun.
  rewrite (uploadToLivepeer_polls Hd), (uploadToLivepeer_delivered Hd), result_of_pair.
  rewrite (@poll_loop_throw net ud t e Hrun), trace_of_pair, result_of_pair.
  auto.
Qed.

(** X6: when a status request fails (the edge function answers with an
    error), the loop having gone on until then, the upload rejects at once
    with 'Failed to check asset status: ' and the error's message, and makes
    no further status request. *)
Theorem status_check_error_rejects net b filename ud k e :
  delivered net b filename ud ->
  (k < 300)%nat ->
  (forall i, (i < k)%nat -> goes_on net i) ->
  error (asset_status net k) = Some e ->
  result_of (uploadToLivepeer net b filename)
  = Throw (mkError ("Failed to check asset status: "
                    ++ or_str (fe_message e) "Unknown error"))
  /\ polls (trace_of (uploadToLivepeer net b filename)) = S k.
Proof.
  rewrite <- maxAttempts_300. intros Hd Hk Hpre He.
  apply (@upload_stopped_with net b filename ud k _ Hd Hk Hpre).
  - unfold answer_goes_on. now rewrite He.
  - unfold poll_outcome. now rewrite He.
Qed.

Lemma status_check_error_witness :
  result_of (uploadToLivepeer net_status_down blob0 "clip.webm")
  = Throw (mkError "Failed to check asset status: gateway")
  /\ polls (trace_of (uploadToLivepeer net_status_down blob0 "clip.webm")) = 2%nat.
Proof.
  apply (@status_check_error_rejects net_status_down blob0 "clip.webm" ticket0 1
           {| fe_message := Some "gateway" |}).
  - apply net_of_delivered.
  - lia.
  - intros i Hi. assert (i = 0)%nat as -> by lia. split; reflexivity.
  - reflexivity.
Defined.

(** X7: a 'ready' answer without a playback id does not resolve the upload:
    it rejects with 'Video processed but playback ID is missing', without a
    'complete' report, and the status request that read it is the last. *)
Theorem ready_without_playback_id_rejects net b filename ud k a :
  delivered net b filename ud ->
  (k < 300)%nat ->
  (forall i, (i < k)%nat -> goes_on net i) ->
  asset_status net k = {| data := Some a; error := None |} ->
  status a = Some "ready" ->
  truthy (playbackId a) = false ->
  let run := uploadToLivepeer net b filename in
  result_of run = Throw (mkError "Video processed but playback ID is missing")
  /\ polls (trace_of run) = S k
  /\ count is_complete (trace_of run) = 0%nat.
Proof.
  rewrite <- maxAttempts_300. intros Hd Hk Hpre Hans Hst Hpid run. subst run.
  apply answered in Hans as [He Hdata].
  assert (Hstop : answer_goes_on net k = false).
  { unfold answer_goes_on, terminal. rewrite He, Hdata. cbn [status_of]. now rewrite Hst. }
  destruct (@poll_stopped_at net ud k Hk Hpre Hstop) as (t & Hrun & Hp & _).
  assert (Hout : poll_outcome net (Some k) None = Ok (Some a)).
  { unfold poll_outcome. rewrite He, Hdata. cbv zeta. cbn [status_of]. now rewrite Hst. }
  rewrite Hout in Hrun.
  assert (Hfin : finish ud (Some a)
                 = ([ConsoleError "Asset ready but no playbackId:"],
                    Throw (mkError "Video processed but playback ID is missing"))).
  { unfold finish. cbn [status_of]. rewrite Hst, Hpid. reflexivity. }
  rewrite (processing_progress_capped_aux net b filename).
  rewrite (uploadToLivepeer_polls Hd), (uploadToLivepeer_delivered Hd), result_of_pair.
  rewrite (@poll_loop_ok net ud t (Some a) Hrun), Hfin.
  rewrite !trace_of_pair, !result_of_pair, polls_app, Hp. cbn [resolved].
  split; [reflexivity|]. split; [cbn; lia | reflexivity].
Qed.

Lemma ready_without_playback_id_witness :
  result_of (uploadToLivepeer net_ready_no_id blob0 "clip.webm")
  = Throw (mkError "Video processed but playback ID is missing")
  /\ polls (trace_of (uploadToLivepeer net_ready_no_id blob0 "clip.webm")) = 2%nat
  /\ count is_complete (trace_of (uploadToLivepeer net_ready_no_id blob0 "clip.webm"))
     = 0%nat.
Proof.
  apply (@ready_without_playback_id_rejects net_ready_no_id blob0 "clip.webm" ticket0 1
           {| status := Some "ready"; playbackId := None; downloadUrl := None;
              asset_error := None; progress := None |}).
  - apply net_of_delivered.
  - lia.
  - intros i Hi. assert (i = 0)%nat as -> by lia. split; reflexivity.
  - reflexivity.
  - reflexivity.
  - reflexivity.
Defined.

(** X8: when the ticket request answers with an error, or without an asset
    id, the upload rejects with the matching error after that one request:
    nothing is uploaded and no status is requested. *)
Theorem ticket_failure_uploads_nothing net b filename :
  let run := uploadToLivepeer net b filename in
  (forall e, error (request_upload net) = Some e ->
     run = ([Invoke "studio-request-upload";
             ConsoleError "Failed to request upload URL:"],
            Throw (mkError ("Failed to request upload: "
                            ++ or_str (fe_message e) "Unknown error"))))
  /\ (error (request_upload net) = None ->
      truthy (match data (request_upload net) with
              | Some uploadData => assetId uploadData
              | None => None
              end) = false ->
      run = ([Invoke "studio-request-upload";
              ConsoleError "Invalid upload response:"],
             Throw (mkError "Failed to get asset ID from server"))).
Proof.
  cbv zeta. unfold uploadToLivepeer, requestUpload. split.
  - intros e ->. reflexivity.
  - intros ->. destruct (data (request_upload net)) as [ud|]; [|reflexivity].
    intros ->. reflexivity.
Qed.

End PollingFacts.

(** ** More on the recorder *)

Module RecordingFacts.
Import Js Recorder Recording RecorderFacts.




Lemma emitted_bytes_kept events :
  concat (map blob_bytes (kept events)) = emitted_bytes events.
Proof.
  induction events as [|[d|] events IH]; cbn; [reflexivity| |exact IH].
  destruct (Z.ltb_spec 0 (blob_size d)); cbn.
  - now rewrite IH.
  - rewrite IH. unfold blob_size in *.
    destruct (blob_bytes d); [reflexivity | cbn in *; lia].
Qed.

(** When [onstop] does not fire, [stop()] times out whatever was recorded. *)
Lemma record_timeout fixd el its now events senv m :
  has_captureStream el = true ->
  find its mimeCandidates = Some m ->
  now <> 0%Z ->
  onstop_fired senv = false ->
  record fixd el its now events senv = ([], Throw StopTimeoutError).
Proof.
  intros Hc Hm Hnow Hstop.
  unfold record. rewrite (@start_ok its now [] el m Hc Hm).
  unfold stop. rewrite !deliver_spec.
  cbn [recorder startTime chunks mimeType videoElement app].
  unfold truthyZ. destruct (Z.eqb_spec now 0); [contradiction|]. cbn [negb].
  rewrite Hstop. reflexivity.
Qed.

(** X10: the recording that [stop()] resolves with is made of the bytes
    the encoder emitted, all of them and in order, those flushed during the
    stop included, under the encoding chosen by [start()]: that blob is what
    the duration repair receives, and the artifact is that blob, or the
    output of the repair when it succeeds. *)
Theorem recording_is_the_emitted_bytes fixd el its now events senv m artifact :
  has_captureStream el = true ->
  find its mimeCandidates = Some m ->
  now <> 0%Z ->
  result_of (record fixd el its now events senv) = Ok artifact ->
  exists raw,
    blob_bytes raw = emitted_bytes (events ++ flushed senv)
    /\ blob_type raw = m
    /\ In (FixWebmDuration raw (now_stop senv - now)%Z)
          (trace_of (record fixd el its now events senv))
    /\ blob artifact = match fixd raw (now_stop senv - now)%Z with
                       | Some fixed => fixed
                       | None => raw
                       end
    /\ rr_mimeType artifact = m.
Proof.
  intros Hc Hm Hnow Hok.
  destruct (onstop_fired senv) eqn:Hstop.
  - pose proof (@record_run fixd el its now events senv m Hc Hm Hnow Hstop) as Hrun.
    cbv zeta in Hrun. rewrite Hrun in Hok |- *.
    exists (new_Blob (kept (events ++ flushed senv)) m).
    split; [unfold new_Blob; cbn [blob_bytes]; apply emitted_bytes_kept|].
    split; [reflexivity|].
    destruct (kept (events ++ flushed senv)) as [|c cs]; [discriminate|].
    destruct (emitted_size (events ++ flushed senv) <? 1000)%Z; [discriminate|].
    destruct (fixd _ _) as [fixed|]; cbn in Hok; injection Hok as <-;
      (split; [now left|]); split; reflexivity.
  - rewrite (@record_timeout fixd el its now events senv m Hc Hm Hnow Hstop) in Hok.
    discriminate.
Qed.

Lemma recording_is_the_emitted_bytes_witness :
  exists raw,
    blob_bytes raw
    = emitted_bytes ([Some (fragment 700); None] ++ flushed (stop_at 6000 [Some (fragment 500)]))
    /\ blob_type raw = "video/webm"
    /\ In (FixWebmDuration raw (now_stop (stop_at 6000 [Some (fragment 500)]) - 1000)%Z)
          (trace_of (record repair_fails video0 webm_only 1000
                       [Some (fragment 700); None] (stop_at 6000 [Some (fragment 500)])))
    /\ clip0 = match repair_fails raw
                       (now_stop (stop_at 6000 [Some (fragment 500)]) - 1000)%Z with
               | Some fixed => fixed
               | None => raw
               end
    /\ "video/webm" = "video/webm".
Proof.
  apply (@recording_is_the_emitted_bytes repair_fails video0 webm_only 1000
           [Some (fragment 700); None] (stop_at 6000 [Some (fragment 500)])
           "video/webm"
           {| blob := clip0; durationMs := 5000; rr_mimeType := "video/webm" |}).
  - reflexivity.
  - reflexivity.
  - discriminate.
  - reflexivity.
Defined.



End RecordingFacts.

(** ** The request body of [updateDaydreamPrompts] *)

Module PromptsFacts.
Import Js Prompts.

Lemma or_str_nonempty a d : d <> "" -> or_str a d <> "".
Proof.
  intros Hd. unfold or_str. destruct a as [s|]; [|exact Hd].
  destruct (String.eqb_spec s ""); assumption.
Qed.

Lemma or_num_nonzero a d : d <> 0%Z -> or_num a d <> 0%Z.
Proof.
  intros Hd. unfold or_num. destruct a as [z|]; [|exact Hd].
  destruct (Z.eqb_spec z 0); assumption.
Qed.




(** X12: whatever the parameters, the body sent to [daydream-prompt] has
    a model id, a negative prompt, a step count and a seed that are not
    falsy: a missing, empty or zero value is replaced by its default, so
    that a seed of 0 asked for by the caller is sent as 42 and 0 steps as
    50.  The prompt is sent as given, and the style image URL only when it
    is not empty. *)
Theorem prompt_body_fills_falsy_members streamId p :
  let b := params (promptBody streamId p) in
  b_model_id b <> ""
  /\ b_negative_prompt b <> ""
  /\ b_num_inference_steps b <> 0%Z
  /\ b_seed b <> 0%Z
  /\ (seed p = Some 0%Z -> b_seed b = 42%Z)
  /\ (num_inference_steps p = Some 0%Z -> b_num_inference_steps b = 50%Z)
  /\ b_prompt b = prompt p
  /\ b_ip_adapter_style_image_url b <> Some "".
Proof.
  cbv zeta. cbn [promptBody params b_model_id b_negative_prompt
                 b_num_inference_steps b_seed b_prompt b_ip_adapter_style_image_url].
  split; [apply or_str_nonempty; discriminate|].
  split; [apply or_str_nonempty; discriminate|].
  split; [apply or_num_nonzero; discriminate|].
  split; [apply or_num_nonzero; discriminate|].
  split; [now intros ->|]. split; [now intros ->|]. split; [reflexivity|].
  destruct (ip_adapter_style_image_url p) as [url|]; cbn; [|discriminate].
  destruct (String.eqb_spec url ""); cbn; [discriminate|]. congruence.
Qed.



End PromptsFacts.
